(** * Project dashboard: the list derivation pipeline and the KPI reduction

  A shallow embedding of the pure parts of
  [ProjectsDisplay] (filter, sort, paginate, progress, priority,
  completion message, page state), of [ProjectManagement.projectStats]
  and of [OverviewTab] (derived metrics, active-count effect).

  Number model.  JavaScript numbers are modelled by exact integers ([Z],
  for counts, page numbers and millisecond timestamps) and exact rationals
  ([Q], for capacities, money and quotients); [NaN] is represented
  explicitly at the places where the code can produce one from these
  inputs (an unparsable date).  Binary64 rounding of intermediate
  quotients is not modelled. *)

From Stdlib Require Import ZArith QArith Qround Qminmax List String Ascii Bool Lia.
From Stdlib Require Import Permutation Sorted DecimalString Lqa.
Import ListNotations.

Local Open Scope Z_scope.

(* ================================================================== *)
(** ** Host functions of the JavaScript runtime *)
(* ================================================================== *)

Module JS.

(** [Math.round]: nearest integer, halves towards +infinity. *)
Definition Math_round (x : Q) : Z := Qfloor (x + (1 # 2)).

(** [Math.floor] and [Math.ceil]. *)
Definition Math_floor (x : Q) : Z := Qfloor x.
Definition Math_ceil (x : Q) : Z := Qceiling x.

(** [Math.max] and [Math.min] on rationals and on integers. *)
Definition Math_max (x y : Q) : Q := Qmax x y.
Definition Math_maxZ (x y : Z) : Z := Z.max x y.
Definition Math_minZ (x y : Z) : Z := Z.min x y.

(** [x || 0] for a nullable number: [null], [undefined] and [0] give 0. *)
Definition orZero (x : option Q) : Q :=
  match x with Some v => v | None => 0%Q end.

(** [s || empty] for a nullable string. *)
Definition orEmpty (s : option string) : string :=
  match s with Some v => v | None => EmptyString end.

(** [String.prototype.toLowerCase] on the Basic Latin range: the letters
    A..Z are mapped to a..z and every other code unit is kept. *)
Definition lower_ascii (c : ascii) : ascii :=
  let n := N_of_ascii c in
  if ((65 <=? n) && (n <=? 90))%N then ascii_of_N (n + 32) else c.

Fixpoint toLowerCase (s : string) : string :=
  match s with
  | EmptyString => EmptyString
  | String c s' => String (lower_ascii c) (toLowerCase s')
  end.

(** [s?.toLowerCase() || empty]: optional chaining on a nullable string. *)
Definition lowerOrEmpty (s : option string) : string :=
  match s with Some v => toLowerCase v | None => EmptyString end.

(** [String.prototype.includes]: [sub] occurs in [s] at some offset. *)
Fixpoint includes (s sub : string) : bool :=
  if String.prefix sub s then true
  else match s with
       | EmptyString => false
       | String _ s' => includes s' sub
       end.

(** [Array.prototype.slice(start, end)]: negative indices count from the
    end of the array, both bounds are clamped to [0, length]. *)
Definition rel_index (len i : Z) : Z :=
  if i <? 0 then Z.max (len + i) 0 else Z.min i len.

Definition slice {A} (l : list A) (start stop : Z) : list A :=
  let len := Z.of_nat (List.length l) in
  let k := rel_index len start in
  let e := rel_index len stop in
  firstn (Z.to_nat (e - k)) (skipn (Z.to_nat k) l).

(** [Array.prototype.sort(cmp)].  The comparator returns a number; a
    positive result puts [a] after [b], anything else (negative, zero, or
    [NaN], which the caller maps to 0) keeps [a] first.  The sort is
    stable (ECMAScript 2019); for a consistent comparator every stable
    sort returns the same array ([SortFacts.stable_sort_unique]),
    computed here by insertion. *)
Section Sort.
Context {A : Type} (cmp : A -> A -> Q).

Definition comes_after (a b : A) : bool := negb (Qle_bool (cmp a b) 0).

Fixpoint insert (x : A) (l : list A) : list A :=
  match l with
  | [] => [x]
  | y :: l' => if comes_after x y then y :: insert x l' else x :: l
  end.

Fixpoint sort (l : list A) : list A :=
  match l with
  | [] => []
  | x :: l' => insert x (sort l')
  end.

End Sort.

(** An evaluation completes with a value or throws. *)
Inductive exception :=
| ReferenceError (name : string).

Inductive completion (A : Type) :=
| Normal (value : A)
| Throw (e : exception).

Arguments Normal {A} value.
Arguments Throw {A} e.

Definition bind {A B} (c : completion A) (k : A -> completion B) : completion B :=
  match c with
  | Normal v => k v
  | Throw e => Throw e
  end.

Definition mapC {A B} (f : A -> B) (c : completion A) : completion B :=
  bind c (fun v => Normal (f v)).

(** [Array.prototype.sort(cmp)] with a comparator that may throw: the
    exception of a comparator call ends the sort.  An array of fewer than
    two elements is returned without any call; with two or more elements
    the comparator is called at least once. *)
Section SortThrowing.
Context {A : Type} (cmp : A -> A -> completion Q).

Fixpoint insertC (x : A) (l : list A) : completion (list A) :=
  match l with
  | [] => Normal [x]
  | y :: l' =>
      bind (cmp x y) (fun v =>
        if negb (Qle_bool v 0)
        then bind (insertC x l') (fun r => Normal (y :: r))
        else Normal (x :: l))
  end.

Fixpoint sortC (l : list A) : completion (list A) :=
  match l with
  | [] => Normal []
  | x :: l' => bind (sortC l') (insertC x)
  end.

End SortThrowing.

(** A number that may be [NaN]; comparisons with [NaN] are false. *)
Inductive number :=
| NaN
| Num (n : Z).

Definition number_ltb (x : number) (k : Z) : bool :=
  match x with NaN => false | Num n => n <? k end.

(** Template-literal rendering of a number: [`${n}`]. *)
Definition string_of_Z (n : Z) : string :=
  NilZero.string_of_int (Z.to_int n).

Definition string_of_number (x : number) : string :=
  match x with NaN => "NaN"%string | Num n => string_of_Z n end.

End JS.

(* ================================================================== *)
(** ** The project record *)
(* ================================================================== *)

(** Modelled from the spec: the [ProjectDto] interface lives in
  [shared/types/project], which is not part of the sources at hand.  The
  fields are the ones the components read, with the nullability their
  uses show ([?.], [|| default], [string | null] parameters). *)
Record ProjectDto := mkProject {
  projectId : string;
  projectName : option string;
  address : option string;
  clientInfo : option string;
  status : option string;
  totalCapacityKw : option Q;
  startDate : string;
  estimatedEndDate : option string;
  taskCount : Z;
  completedTaskCount : Z;
  revenueValue : option Q;
  ftsValue : option Q
}.

(** Functions of the runtime whose results depend on data outside the
  program: the collation used by [localeCompare] and the date parser
  behind [new Date(s).getTime()] ([None] is [NaN], an invalid date). *)
Class Host := {
  localeCompare : string -> string -> Z;
  Date_getTime : string -> option Z
}.


(* ================================================================== *)
(** ** ProjectsDisplay *)
(* ================================================================== *)

Module ProjectsDisplay.
Import JS.
Local Open Scope string_scope.

(** [const [itemsPerPage] = useState(9)]: never updated. *)
Definition itemsPerPage : Z := 9%Z.

(** [calculateProgress]. *)
Definition calculateProgress (project : ProjectDto) : Z :=
  if (taskCount project =? 0)%Z then 0%Z
  else Math_round
         (inject_Z (completedTaskCount project) / inject_Z (taskCount project)
          * 100)%Q.

(** The callback of [projects.filter]. *)
Definition matchesSearch (searchTerm : string) (project : ProjectDto) : bool :=
  includes (lowerOrEmpty (projectName project)) (toLowerCase searchTerm)
  || includes (lowerOrEmpty (address project)) (toLowerCase searchTerm)
  || includes (lowerOrEmpty (clientInfo project)) (toLowerCase searchTerm).

Definition matchesStatus (statusFilter : string) (project : ProjectDto) : bool :=
  (statusFilter =? "all")
  || match status project with
     | Some s => s =? statusFilter
     | None => false
     end.

Definition filteredProjects (projects : list ProjectDto)
    (searchTerm statusFilter : string) : list ProjectDto :=
  filter (fun project =>
            matchesSearch searchTerm project && matchesStatus statusFilter project)
         projects.

(** The comparator of [[...filteredProjects].sort].  A [NaN] difference of
    two timestamps is read as 0 by the sort.  The sort runs near the top
    of the component body, while [const calculateProgress] is initialised
    only further down; the call in the "progress" branch reads the binding
    before its initialisation and throws a ReferenceError. *)
Definition compareProjects `{Host} (sortBy : string) (a b : ProjectDto)
    : completion Q :=
  if sortBy =? "name" then
    Normal (inject_Z (localeCompare (orEmpty (projectName a))
                                    (orEmpty (projectName b))))
  else if sortBy =? "status" then
    Normal (inject_Z (localeCompare (orEmpty (status a)) (orEmpty (status b))))
  else if sortBy =? "capacity" then
    Normal (orZero (totalCapacityKw b) - orZero (totalCapacityKw a))%Q
  else if sortBy =? "startDate" then
    match Date_getTime (startDate a), Date_getTime (startDate b) with
    | Some ta, Some tb => Normal (inject_Z (ta - tb))
    | _, _ => Normal 0%Q
    end
  else if sortBy =? "progress" then
    Throw (ReferenceError "calculateProgress")
  else Normal 0%Q.

Definition sortedProjects `{Host} (sortBy : string)
    (filtered : list ProjectDto) : completion (list ProjectDto) :=
  sortC (compareProjects sortBy) filtered.

(** Pagination. *)
Definition totalPages (sorted : list ProjectDto) : Z :=
  Math_ceil (inject_Z (Z.of_nat (List.length sorted)) / inject_Z itemsPerPage)%Q.

Definition paginatedProjects (sorted : list ProjectDto) (currentPage : Z)
    : list ProjectDto :=
  slice sorted ((currentPage - 1) * itemsPerPage)%Z (currentPage * itemsPerPage)%Z.

(** The page buttons: [[...Array(totalPages)].map((_, i) => i + 1)]. *)
Definition pageButtons (total : Z) : list Z :=
  map (fun i => (Z.of_nat i + 1)%Z) (seq 0 (Z.to_nat total)).

(** [getPriority]. *)
Definition status_is (project : ProjectDto) (s : string) : bool :=
  match status project with Some v => v =? s | None => false end.

Definition getPriority (project : ProjectDto) : string :=
  let progress := calculateProgress project in
  if status_is project "OnHold" then "High"
  else if status_is project "InProgress" && (progress <? 30)%Z then "Medium"
  else if status_is project "Planning" then "Low"
  else "Normal".

(** [getDaysUntilEnd]; [now] is the reading of the clock, in milliseconds.
    [None] is [null]: a missing or empty end date. *)
Definition msPerDay : Z := (1000 * 60 * 60 * 24)%Z.

Definition getDaysUntilEnd `{Host} (now : Z) (endDate : option string)
    : option number :=
  match endDate with
  | None => None
  | Some EmptyString => None
  | Some e =>
      match Date_getTime e with
      | Some t => Some (Num (Math_floor (inject_Z (t - now) / inject_Z msPerDay)%Q))
      | None => Some NaN
      end
  end.

(** [getCompletionMessage]. *)
Definition getCompletionMessage `{Host} (now : Z) (project : ProjectDto) : string :=
  let progress := calculateProgress project in
  let daysUntilEnd := getDaysUntilEnd now (estimatedEndDate project) in
  if (progress =? 100)%Z then "✅ Completed"
  else
    let fallback := "🚧 " ++ string_of_Z progress ++ "% complete" in
    match daysUntilEnd with
    | Some d =>
        if number_ltb d 0 then "⚠️ Overdue"
        else if number_ltb d 7 then "⏰ Due in " ++ string_of_number d ++ " days"
        else if number_ltb d 30 then "📅 Due in " ++ string_of_number d ++ " days"
        else fallback
    | None => fallback
    end.

(** *** View state and events

    The state variables of the component, the record list it receives as a
    prop, and the handlers wired to the controls.  The model covers the
    loaded, error-free render, the only one that shows controls. *)
Inductive ViewMode :=
| grid
| list_mode.

Record ViewState := mkView {
  searchTerm : string;
  statusFilter : string;
  sortBy : string;
  viewMode : ViewMode;
  currentPage : Z
}.

(** [useState] initial values. *)
Definition initialState : ViewState :=
  {| searchTerm := EmptyString; statusFilter := "all"; sortBy := "name";
     viewMode := grid; currentPage := 1%Z |}.

Definition setCurrentPage (s : ViewState) (page : Z) : ViewState :=
  {| searchTerm := searchTerm s; statusFilter := statusFilter s;
     sortBy := sortBy s; viewMode := viewMode s; currentPage := page |}.

Definition setSearchTerm (s : ViewState) (term : string) : ViewState :=
  {| searchTerm := term; statusFilter := statusFilter s;
     sortBy := sortBy s; viewMode := viewMode s; currentPage := currentPage s |}.

Definition setStatusFilter (s : ViewState) (f : string) : ViewState :=
  {| searchTerm := searchTerm s; statusFilter := f;
     sortBy := sortBy s; viewMode := viewMode s; currentPage := currentPage s |}.

Definition setSortBy (s : ViewState) (k : string) : ViewState :=
  {| searchTerm := searchTerm s; statusFilter := statusFilter s;
     sortBy := k; viewMode := viewMode s; currentPage := currentPage s |}.

Definition setViewMode (s : ViewState) (m : ViewMode) : ViewState :=
  {| searchTerm := searchTerm s; statusFilter := statusFilter s;
     sortBy := sortBy s; viewMode := m; currentPage := currentPage s |}.

(** What one render derives from the props and the state; the render
    throws when the sort does. *)
Definition derivedList `{Host} (projects : list ProjectDto) (s : ViewState)
    : completion (list ProjectDto) :=
  sortedProjects (sortBy s)
    (filteredProjects projects (searchTerm s) (statusFilter s)).

Definition derivedTotalPages `{Host} (projects : list ProjectDto)
    (s : ViewState) : completion Z :=
  mapC totalPages (derivedList projects s).

Definition derivedPage `{Host} (projects : list ProjectDto) (s : ViewState)
    : completion (list ProjectDto) :=
  mapC (fun sorted => paginatedProjects sorted (currentPage s))
       (derivedList projects s).

(** The component together with its [projects] prop. *)
Record Component := mkComponent {
  projects : list ProjectDto;
  view : ViewState
}.

(** The component at mount. *)
Definition mount (ps : list ProjectDto) : Component := mkComponent ps initialState.

Inductive Event :=
| TypeSearch (term : string)        (* search input onChange, clear button *)
| SelectStatus (f : string)         (* status select onChange *)
| ClearAllFilters                   (* empty-state button *)
| SelectSort (k : string)           (* sort select onChange *)
| SelectViewMode (m : ViewMode)     (* grid / list toggle *)
| Previous
| Next
| PageButton (i : Z)                (* the button of index i sets page i + 1 *)
| ProjectsProp (ps : list ProjectDto). (* the parent passes a new list *)

(** The state update each handler performs; [Next] reads [totalPages] of
    the render the button belongs to, given here as [pages]. *)
Definition handle (c : Component) (pages : Z) (e : Event) : Component :=
  let s := view c in
  match e with
  | TypeSearch term => mkComponent (projects c) (setSearchTerm s term)
  | SelectStatus f => mkComponent (projects c) (setStatusFilter s f)
  | ClearAllFilters =>
      mkComponent (projects c) (setStatusFilter (setSearchTerm s EmptyString) "all")
  | SelectSort k => mkComponent (projects c) (setSortBy s k)
  | SelectViewMode m => mkComponent (projects c) (setViewMode s m)
  | Previous =>
      mkComponent (projects c) (setCurrentPage s (Math_maxZ (currentPage s - 1) 1))
  | Next =>
      mkComponent (projects c)
        (setCurrentPage s (Math_minZ (currentPage s + 1) pages))
  | PageButton i => mkComponent (projects c) (setCurrentPage s (i + 1)%Z)
  | ProjectsProp ps => mkComponent ps s
  end.

(** The effect with dependencies [searchTerm, statusFilter, viewMode]: it
    runs after a render in which one of them differs from the previous
    render, and sets the page to 1. *)
Definition viewMode_eqb (a b : ViewMode) : bool :=
  match a, b with
  | grid, grid | list_mode, list_mode => true
  | _, _ => false
  end.

Definition depsChanged (old new : ViewState) : bool :=
  negb ((searchTerm old =? searchTerm new)
        && (statusFilter old =? statusFilter new)
        && viewMode_eqb (viewMode old) (viewMode new)).

Definition resetEffect (old new : ViewState) : ViewState :=
  if depsChanged old new then setCurrentPage new 1%Z else new.

(** One event on a rendered component: the handler, the render with the
    updated state, which may throw, then the effect; the result is the
    state the component settles in (the render after the effect differs
    from the one before it in the page only). *)
Definition step `{Host} (c : Component) (e : Event) : completion Component :=
  bind (derivedList (projects c) (view c)) (fun sorted =>
    let c' := handle c (totalPages sorted) e in
    bind (derivedList (projects c') (view c')) (fun _ =>
      Normal (mkComponent (projects c') (resetEffect (view c) (view c'))))).

(** Which controls a render offers.  The pagination bar is rendered only
    when more records match than fit one page; its page buttons are
    [Array(totalPages)] many; [Previous] and [Next] are disabled at the
    first and last page; the clear-all button belongs to the empty state.
    A render that threw offers nothing. *)
Definition offeredIn (sorted : list ProjectDto) (s : ViewState) (e : Event)
    : bool :=
  let n := Z.of_nat (List.length sorted) in
  let pages := totalPages sorted in
  let page := currentPage s in
  match e with
  | Previous => (itemsPerPage <? n)%Z && negb (page =? 1)%Z
  | Next => (itemsPerPage <? n)%Z && negb (page =? pages)%Z
  | PageButton i => (itemsPerPage <? n)%Z && (0 <=? i)%Z && (i <? pages)%Z
  | ClearAllFilters =>
      (n =? 0)%Z
      && (negb (searchTerm s =? EmptyString)
          || negb (statusFilter s =? "all"))
  | _ => true
  end.

Definition offered `{Host} (c : Component) (e : Event) : bool :=
  match derivedList (projects c) (view c) with
  | Normal sorted => offeredIn sorted (view c) e
  | Throw _ => false
  end.

(** A session: the events arrive one by one; an event no control offers
    cannot occur and is skipped; an exception ends the session. *)
Fixpoint run `{Host} (c : Component) (events : list Event)
    : completion Component :=
  match events with
  | [] => Normal c
  | e :: rest =>
      if offered c e then bind (step c e) (fun c' => run c' rest)
      else run c rest
  end.

End ProjectsDisplay.

(* ================================================================== *)
(** ** ProjectManagement: the statistics object *)
(* ================================================================== *)

(** The [ProjectStats] interface as [OverviewTab] declares it; the optional
    [statusDistribution] tally is not read by any KPI and is left out. *)
Record ProjectStats := mkStats {
  totalProjects : Z;
  totalBudget : Q;
  totalSpent : Q;
  totalCapacity : Q;
  budgetUtilization : option Q
}.

Module ProjectManagement.
Import JS.

(** [projects.reduce((sum, p) => sum + (f(p) || 0), 0)]. *)
Definition reduceSum (f : ProjectDto -> option Q) (projects : list ProjectDto) : Q :=
  fold_left (fun sum p => (sum + orZero (f p))%Q) projects 0%Q.

(** The denominator of the utilization ratio. *)
Definition utilizationDenominator (projects : list ProjectDto) : Q :=
  Math_max (reduceSum revenueValue projects) 1.

Definition projectStats (projects : list ProjectDto) : ProjectStats :=
  {| totalProjects := Z.of_nat (List.length projects);
     totalBudget := reduceSum revenueValue projects;
     totalSpent := reduceSum ftsValue projects;
     totalCapacity := reduceSum totalCapacityKw projects;
     budgetUtilization :=
       Some (if (0 <? Z.of_nat (List.length projects))%Z
             then (reduceSum ftsValue projects
                   / utilizationDenominator projects * 100)%Q
             else 0%Q) |}.

End ProjectManagement.

(* ================================================================== *)
(** ** OverviewTab *)
(* ================================================================== *)

Module OverviewTab.
Import JS.
Local Open Scope string_scope.

(** Derived metrics: the [stats] prop wins, the local reduction is the
    fallback of [??]. *)
Definition totalBudget (projects : list ProjectDto) (stats : option ProjectStats) : Q :=
  match stats with
  | Some s => totalBudget s
  | None => ProjectManagement.reduceSum revenueValue projects
  end.

Definition totalSpent (projects : list ProjectDto) (stats : option ProjectStats) : Q :=
  match stats with
  | Some s => totalSpent s
  | None => ProjectManagement.reduceSum ftsValue projects
  end.

Definition totalCapacity (projects : list ProjectDto) (stats : option ProjectStats) : Q :=
  match stats with
  | Some s => totalCapacity s
  | None => ProjectManagement.reduceSum totalCapacityKw projects
  end.

Definition budgetUtilization (projects : list ProjectDto)
    (stats : option ProjectStats) : Q :=
  match stats with
  | Some {| budgetUtilization := Some u |} => u
  | _ =>
      if negb (Qle_bool (totalBudget projects stats) 0)   (* totalBudget > 0 *)
      then (totalSpent projects stats / totalBudget projects stats * 100)%Q
      else 0%Q
  end.

(** Modelled from the spec: the data-source collaborator [projectsApi]
    is not part of the sources at hand; its query carries a page number, a
    page size and a comma-joined status list (the [status] field), and its
    response carries the items and a total count.  The request either
    resolves with a response or rejects with an error. *)
Record ProjectQuery := mkQuery {
  pageNumber : Z;
  pageSize : Z;
  statusList : string
}.

Record PagedResponse := mkResponse {
  items : list ProjectDto;
  totalCount : Z
}.

Inductive Outcome :=
| Resolved (response : PagedResponse)
| Rejected (error : string).

(** The component state and the console it writes to. *)
Record OverviewState := mkOverview {
  activeProjectsCount : Z;
  console : list (string * string)
}.

(** [useState<number>(0)]. *)
Definition initialOverview : OverviewState :=
  {| activeProjectsCount := 0%Z; console := [] |}.

Definition activeQuery : ProjectQuery :=
  {| pageNumber := 1%Z; pageSize := 1%Z;
     statusList := "InProgress,Planning,OnHold" |}.

(** [fetchCount]: [try { await getAllProjects(...) } catch (error) { ... }]. *)
Definition fetchCount (getAllProjects : ProjectQuery -> Outcome)
    (projects : list ProjectDto) (st : OverviewState) : OverviewState :=
  match getAllProjects activeQuery with
  | Resolved response =>
      {| activeProjectsCount := totalCount response; console := console st |}
  | Rejected error =>
      {| activeProjectsCount := Z.of_nat (List.length projects);
         console := console st ++ [("Error fetching count", error)] |}
  end.

(** The value of the "Active Projects" card. *)
Definition activeProjectsKpi (st : OverviewState) : Z := activeProjectsCount st.

End OverviewTab.

(* ================================================================== *)
(** ** Specification-side notions *)
(* ================================================================== *)

Module Spec.
Local Open Scope string_scope.

(** [sub] is a substring of [s]. *)
Definition Substring (sub s : string) : Prop :=
  exists pre post, s = pre ++ sub ++ post.

(** The filter rule in the words of the specification: the search term,
    compared without regard to case, occurs in the name, the address or
    the client-info field (a null field counts as the empty string), and
    the status filter is "all" or is the record's status. *)
Definition matchesSearch (searchTerm : string) (r : ProjectDto) : Prop :=
  Substring (JS.toLowerCase searchTerm) (JS.toLowerCase (JS.orEmpty (projectName r)))
  \/ Substring (JS.toLowerCase searchTerm) (JS.toLowerCase (JS.orEmpty (address r)))
  \/ Substring (JS.toLowerCase searchTerm) (JS.toLowerCase (JS.orEmpty (clientInfo r))).

Definition matchesStatus (statusFilter : string) (r : ProjectDto) : Prop :=
  statusFilter = "all" \/ status r = Some statusFilter.

Definition matches (searchTerm statusFilter : string) (r : ProjectDto) : Prop :=
  matchesSearch searchTerm r /\ matchesStatus statusFilter r.

(** [kept] is [l] with exactly the elements satisfying [P] kept, in the
    order and multiplicity they have in [l]. *)
Inductive Kept {A} (P : A -> Prop) : list A -> list A -> Prop :=
| Kept_nil : Kept P [] []
| Kept_keep x l kept : P x -> Kept P l kept -> Kept P (x :: l) (x :: kept)
| Kept_drop x l kept : ~ P x -> Kept P l kept -> Kept P (x :: l) kept.

(** What a comparator must satisfy, on the records that get sorted, for
    the result of a sort to be determined: opposite signs when the
    arguments are swapped, and transitivity. *)
Record Consistent {A} (dom : A -> Prop) (cmp : A -> A -> Q) : Prop := {
  cmp_swap : forall a b, dom a -> dom b -> (0 < cmp a b)%Q <-> (cmp b a < 0)%Q;
  cmp_trans : forall a b c, dom a -> dom b -> dom c ->
      (cmp a b <= 0)%Q -> (cmp b c <= 0)%Q -> (cmp a c <= 0)%Q
}.

(** The order and the ties a comparator induces. *)
Definition notAfter {A} (cmp : A -> A -> Q) (a b : A) : Prop := (cmp a b <= 0)%Q.
Definition tiedBy {A} (cmp : A -> A -> Q) (a b : A) : bool := Qeq_bool (cmp a b) 0.

(** The same for the collation of the host. *)
Record HostLaws (H : Host) : Prop := {
  localeCompare_swap : forall a b : string,
      (0 < localeCompare a b)%Z <-> (localeCompare b a < 0)%Z;
  localeCompare_trans : forall a b c : string,
      (localeCompare a b <= 0)%Z -> (localeCompare b c <= 0)%Z ->
      (localeCompare a c <= 0)%Z
}.

(** [output] is [input] stably sorted: a rearrangement of it in which
    [before] holds between every element and each later one, and in which
    the elements tied with any given one keep the order they had. *)
Definition StablySorted {A} (dom : A -> Prop) (before : A -> A -> Prop)
    (tied : A -> A -> bool) (input output : list A) : Prop :=
  Permutation input output
  /\ StronglySorted before output
  /\ forall x, dom x -> filter (tied x) output = filter (tied x) input.

(** The orders of the specification. *)
Definition nameKey (r : ProjectDto) : string := JS.orEmpty (projectName r).
Definition statusKey (r : ProjectDto) : string := JS.orEmpty (status r).
Definition capacityKey (r : ProjectDto) : Q := JS.orZero (totalCapacityKw r).

Definition byName `{Host} (a b : ProjectDto) : Prop :=
  (localeCompare (nameKey a) (nameKey b) <= 0)%Z.
Definition byStatus `{Host} (a b : ProjectDto) : Prop :=
  (localeCompare (statusKey a) (statusKey b) <= 0)%Z.
Definition byCapacityDesc (a b : ProjectDto) : Prop :=
  (capacityKey b <= capacityKey a)%Q.
Definition byStartDate `{Host} (a b : ProjectDto) : Prop :=
  exists ta tb, Date_getTime (startDate a) = Some ta
                /\ Date_getTime (startDate b) = Some tb /\ (ta <= tb)%Z.
Definition sameName `{Host} (a b : ProjectDto) : bool :=
  (localeCompare (nameKey a) (nameKey b) =? 0)%Z.
Definition sameStatus `{Host} (a b : ProjectDto) : bool :=
  (localeCompare (statusKey a) (statusKey b) =? 0)%Z.
Definition sameCapacity (a b : ProjectDto) : bool :=
  Qeq_bool (capacityKey a) (capacityKey b).
Definition sameStartDate `{Host} (a b : ProjectDto) : bool :=
  match Date_getTime (startDate a), Date_getTime (startDate b) with
  | Some ta, Some tb => (ta =? tb)%Z
  | _, _ => false
  end.
(** The difference of the two start timestamps, 0 when one is invalid. *)
Definition startDifference `{Host} (a b : ProjectDto) : Z :=
  match Date_getTime (startDate a), Date_getTime (startDate b) with
  | Some ta, Some tb => ta - tb
  | _, _ => 0
  end.

(** The numbers the comparator returns for the keys that do not throw. *)
Definition compareName `{Host} (a b : ProjectDto) : Q :=
  inject_Z (localeCompare (nameKey a) (nameKey b)).
Definition compareStatus `{Host} (a b : ProjectDto) : Q :=
  inject_Z (localeCompare (statusKey a) (statusKey b)).
Definition compareCapacity (a b : ProjectDto) : Q :=
  (capacityKey b - capacityKey a)%Q.
Definition compareStartDate `{Host} (a b : ProjectDto) : Q :=
  inject_Z (startDifference a b).
Definition compareNothing (a b : ProjectDto) : Q := 0%Q.

(** A start date the host can parse. *)
Definition validStart `{Host} (r : ProjectDto) : Prop :=
  exists t, Date_getTime (startDate r) = Some t.

Definition anyRecord (r : ProjectDto) : Prop := True.

(** The page invariant as the specification words it, and the bound the
    component keeps; both are about a render that completed, with its
    page count. *)
Definition pageInRange `{Host} (c : ProjectsDisplay.Component) : Prop :=
  exists pages,
    ProjectsDisplay.derivedTotalPages (ProjectsDisplay.projects c)
      (ProjectsDisplay.view c) = JS.Normal pages
    /\ (1 <= ProjectsDisplay.currentPage (ProjectsDisplay.view c) <= pages)%Z.

Definition pageSettled `{Host} (c : ProjectsDisplay.Component) : Prop :=
  exists pages,
    ProjectsDisplay.derivedTotalPages (ProjectsDisplay.projects c)
      (ProjectsDisplay.view c) = JS.Normal pages
    /\ (1 <= ProjectsDisplay.currentPage (ProjectsDisplay.view c)
         <= Z.max 1 pages)%Z.

(** The sum of a nullable numeric field over the records, a missing value
    counting as 0. *)
Fixpoint sumOf (f : ProjectDto -> option Q) (records : list ProjectDto) : Q :=
  match records with
  | [] => 0%Q
  | r :: rest => (JS.orZero (f r) + sumOf f rest)%Q
  end.

End Spec.

(* ================================================================== *)
(** ** Sample records *)
(* ================================================================== *)

Module Samples.
Local Open Scope string_scope.

Definition blank (id : string) : ProjectDto :=
  {| projectId := id; projectName := None; address := None;
     clientInfo := None; status := None; totalCapacityKw := None;
     startDate := "2024-01-01"; estimatedEndDate := None;
     taskCount := 0; completedTaskCount := 0;
     revenueValue := None; ftsValue := None |}.

Definition named (id name st : string) (tasks done : Z) : ProjectDto :=
  {| projectId := id; projectName := Some name; address := None;
     clientInfo := None; status := Some st; totalCapacityKw := None;
     startDate := "2024-01-01"; estimatedEndDate := None;
     taskCount := tasks; completedTaskCount := done;
     revenueValue := None; ftsValue := None |}.

(** The two records of the specification's scenario. *)
Definition alpha : ProjectDto := named "p1" "Alpha" "Planning" 0 0.
Definition beta : ProjectDto := named "p2" "Beta" "InProgress" 10 3.

(** More tasks completed than exist, and a negative completed count. *)
Definition overrun : ProjectDto := named "p3" "Gamma" "InProgress" 10 20.
Definition negative : ProjectDto := named "p4" "Delta" "InProgress" 10 (-5).

(** A host for running the definitions: code-unit order for
    [localeCompare], and a calendar of the dates the samples use, as
    milliseconds since the epoch (anything else is an invalid date). *)
Definition calendar : list (string * Z) :=
  [ ("2024-01-01", 1704067200000);
    ("2024-01-04", 1704326400000);
    ("2024-01-21", 1705795200000);
    ("2024-03-01", 1709251200000);
    ("2023-12-25", 1703462400000) ].

Fixpoint lookup (s : string) (table : list (string * Z)) : option Z :=
  match table with
  | [] => None
  | (k, v) :: rest => if (k =? s)%string then Some v else lookup s rest
  end.

Definition host : Host :=
  {| localeCompare := fun a b =>
       match String.compare a b with Eq => 0 | Lt => -1 | Gt => 1 end;
     Date_getTime := fun s => lookup s calendar |}.

(** Ten records on one list, and the component showing its second page. *)
Definition ten : list ProjectDto := (repeat alpha 9 ++ [beta])%list.

Definition onPageTwo : ProjectsDisplay.Component :=
  ProjectsDisplay.mkComponent ten
    (ProjectsDisplay.setCurrentPage ProjectsDisplay.initialState 2).

(** A search that matched nothing while the sort key is "progress". *)
Definition nothingByProgress : ProjectsDisplay.Component :=
  ProjectsDisplay.mkComponent [alpha; beta]
    (ProjectsDisplay.setSortBy
       (ProjectsDisplay.setSearchTerm ProjectsDisplay.initialState "zzz")
       "progress").

(** Noon of 2024-01-01, the clock reading used with the samples. *)
Definition noon : Z := 1704110400000.

Definition due (id st : string) (tasks done : Z) (endDate : option string)
    : ProjectDto :=
  {| projectId := id; projectName := Some id; address := None;
     clientInfo := None; status := Some st; totalCapacityKw := None;
     startDate := "2024-01-01"; estimatedEndDate := endDate;
     taskCount := tasks; completedTaskCount := done;
     revenueValue := None; ftsValue := None |}.

Definition funded (id : string) (revenue spent capacity : option Q) : ProjectDto :=
  {| projectId := id; projectName := Some id; address := None;
     clientInfo := None; status := Some "InProgress";
     totalCapacityKw := capacity;
     startDate := "2024-01-01"; estimatedEndDate := None;
     taskCount := 0; completedTaskCount := 0;
     revenueValue := revenue; ftsValue := spent |}.

(** Four records started in March, at Christmas, in January and again at
    Christmas. *)
Definition started (id date : string) : ProjectDto :=
  {| projectId := id; projectName := Some id; address := None;
     clientInfo := None; status := Some "Planning"; totalCapacityKw := None;
     startDate := date; estimatedEndDate := None;
     taskCount := 0; completedTaskCount := 0;
     revenueValue := None; ftsValue := None |}.

Definition starts : list ProjectDto :=
  [ started "m" "2024-03-01"; started "x" "2023-12-25";
    started "j" "2024-01-04"; started "y" "2023-12-25" ].

(** Two funded records: revenue 200 and 300, spent 50 and 75, capacity 12
    and none. *)
Definition books : list ProjectDto :=
  [ funded "f" (Some 200%Q) (Some 50%Q) (Some 12%Q);
    funded "g" (Some 300%Q) (Some 75%Q) None ].

(** Four records with capacities 5, 9, none and 5. *)
Definition plants : list ProjectDto :=
  [ funded "a" None None (Some 5%Q); funded "b" None None (Some 9%Q);
    funded "c" None None None; funded "d" None None (Some 5%Q) ].

End Samples.

(* ================================================================== *)
(** ** ProjectsDisplay: the remaining helpers of the view *)
(* ================================================================== *)

Module ProjectsDisplayView.
Import JS ProjectsDisplay.
Local Open Scope string_scope.

(** [new Set(values)] read back with [Array.from]: a value is added when
    it is not in the set yet, and iteration follows insertion order. *)
Definition setAdd (seen : list string) (x : string) : list string :=
  if existsb (String.eqb x) seen then seen else (seen ++ [x])%list.

Definition arrayFromSet (values : list string) : list string :=
  fold_left setAdd values [].

(** [.filter((status): status is string => status !== null)]. *)
Fixpoint filterNotNull (values : list (option string)) : list string :=
  match values with
  | [] => []
  | Some v :: rest => v :: filterNotNull rest
  | None :: rest => filterNotNull rest
  end.

(** [uniqueStatuses]: the options of the status select, after "all". *)
Definition uniqueStatuses (projects : list ProjectDto) : list string :=
  arrayFromSet (filterNotNull (map status projects)).

(** [getStatusColor] and [getStatusIcon]: a [switch] on the status. *)
Definition getStatusColor (st : option string) : string :=
  match st with
  | None => "bg-gray-100 text-gray-800 border-gray-200"
  | Some s =>
      if s =? "Planning" then "bg-yellow-100 text-yellow-800 border-yellow-200"
      else if s =? "InProgress" then "bg-blue-100 text-blue-800 border-blue-200"
      else if s =? "Completed" then "bg-blue-100 text-blue-800 border-blue-200"
      else if s =? "OnHold" then "bg-red-100 text-red-800 border-red-200"
      else if s =? "Cancelled" then "bg-gray-100 text-gray-800 border-gray-200"
      else "bg-gray-100 text-gray-800 border-gray-200"
  end.

Definition getStatusIcon (st : option string) : string :=
  match st with
  | None => "❓"
  | Some s =>
      if s =? "Planning" then "📋"
      else if s =? "InProgress" then "⚡"
      else if s =? "Completed" then "✅"
      else if s =? "OnHold" then "⏸️"
      else if s =? "Cancelled" then "❌"
      else "❓"
  end.

(** [getPriorityColor]. *)
Definition getPriorityColor (priority : string) : string :=
  if priority =? "High" then "text-red-600"
  else if priority =? "Medium" then "text-yellow-600"
  else if priority =? "Low" then "text-blue-600"
  else "text-gray-600".

(** [===] between a number that may be [NaN] and an integer. *)
Definition number_eqb (x : number) (k : Z) : bool :=
  match x with NaN => false | Num n => (n =? k)%Z end.

(** [formatDate].  [now] is the reading of the clock; [toLocaleDateString]
    stands for [new Date(s).toLocaleDateString("en-US", ...)], whose
    output is the host's. *)
Definition formatDate `{Host} (toLocaleDateString : string -> string)
    (now : Z) (dateString : string) : string :=
  let diffInDays :=
    match Date_getTime dateString with
    | Some t => Num (Math_floor (inject_Z (now - t) / inject_Z msPerDay)%Q)
    | None => NaN
    end in
  if number_eqb diffInDays 0 then "Today"
  else if number_eqb diffInDays 1 then "Yesterday"
  else if number_ltb diffInDays 7 then string_of_number diffInDays ++ " days ago"
  else toLocaleDateString dateString.

(** The values of the sort select's options. *)
Definition sortOptions : list string :=
  ["name"; "status"; "capacity"; "startDate"; "progress"].

(** The two numbers of "Showing X to Y of N projects". *)
Definition showingFrom (currentPage : Z) : Z :=
  ((currentPage - 1) * itemsPerPage + 1)%Z.

Definition showingTo (sorted : list ProjectDto) (currentPage : Z) : Z :=
  Math_minZ (currentPage * itemsPerPage)%Z (Z.of_nat (List.length sorted)).

End ProjectsDisplayView.

(* ================================================================== *)
(** ** Navigation: Sidebar, the tab table and the active tab *)
(* ================================================================== *)

Module Navigation.
Local Open Scope string_scope.

(** [Array.prototype.includes] on an array of strings. *)
Definition includesItem (items : list string) (x : string) : bool :=
  existsb (String.eqb x) items.

(** Sidebar: [navigationItems]; the icon is recorded by its name. *)
Record NavigationItem := mkNav {
  navId : string;
  navLabel : string;
  navIcon : string;
  roles : option (list string)
}.

Definition navigationItems : list NavigationItem :=
  [ mkNav "overview" "Overview" "LayoutDashboard" None;
    mkNav "projects" "Projects" "Briefcase" None;
    mkNav "construction" "Construction" "HardHat" None;
    mkNav "planning" "Planning" "CalendarDays" None;
    mkNav "reports" "Reports" "FileBarChart" None;
    mkNav "analytics" "Analytics" "BarChart3" (Some ["Admin"; "Manager"]) ].

(** [!item.roles || (roleName && item.roles.includes(roleName))]: a
    missing or empty role name is falsy. *)
Definition itemVisible (roleName : option string) (item : NavigationItem) : bool :=
  match roles item with
  | None => true
  | Some allowed =>
      match roleName with
      | None => false
      | Some EmptyString => false
      | Some r => includesItem allowed r
      end
  end.

Definition filteredItems (roleName : option string) : list NavigationItem :=
  filter (itemVisible roleName) navigationItems.

(** AppShell hands the sidebar [roleName || undefined]. *)
Definition sidebarRole (roleName : option string) : option string :=
  match roleName with
  | Some EmptyString => None
  | other => other
  end.

(** ProjectManagement: [tabs] and [availableTabs]. *)
Record Tab := mkTab {
  tabId : string;
  tabLabel : string;
  tabIcon : string;
  tabDescription : string;
  requiredRole : option (list string)
}.

Definition tabs : list Tab :=
  [ mkTab "overview" "Overview" "📊" "Project statistics and key metrics" None;
    mkTab "projects" "Projects" "🏗️" "Manage all solar projects" None;
    mkTab "construction" "Construction" "🔧"
      "Construction progress and activities" None;
    mkTab "planning" "Planning" "📅" "Gantt charts and project timelines" None;
    mkTab "reports" "Reports" "📈" "Generate and view project reports" None;
    mkTab "analytics" "Analytics" "📊" "Data analysis and insights"
      (Some ["Admin"; "Manager"]) ].

(** [tab.requiredRole.includes(roleName || empty)]. *)
Definition tabAvailable (roleName : option string) (tab : Tab) : bool :=
  match requiredRole tab with
  | None => true
  | Some allowed => includesItem allowed (JS.orEmpty roleName)
  end.

Definition availableTabs (roleName : option string) : list Tab :=
  filter (tabAvailable roleName) tabs.

(** [renderTabContent]: which panel the active tab selects. *)
Inductive TabContent :=
| OverviewPanel
| ProjectsPanel
| ConstructionPanel
| PlanningPanel
| ReportsPanel
| AnalyticsPanel
| TabNotFound.

Definition renderTabContent (activeTab : string) : TabContent :=
  if activeTab =? "overview" then OverviewPanel
  else if activeTab =? "projects" then ProjectsPanel
  else if activeTab =? "construction" then ConstructionPanel
  else if activeTab =? "planning" then PlanningPanel
  else if activeTab =? "reports" then ReportsPanel
  else if activeTab =? "analytics" then AnalyticsPanel
  else TabNotFound.

(** [useState("overview")] and the two ways the active tab is set: a click
    on a sidebar button, which exists for the filtered items only, and the
    "View All Projects" callback of the overview panel. *)
Definition initialTab : string := "overview".

Inductive NavEvent :=
| SidebarClick (id : string)
| ViewAllProjects.

Definition navOffered (roleName : option string) (activeTab : string)
    (e : NavEvent) : bool :=
  match e with
  | SidebarClick id =>
      includesItem (map navId (filteredItems (sidebarRole roleName))) id
  | ViewAllProjects =>
      match renderTabContent activeTab with
      | OverviewPanel => true
      | _ => false
      end
  end.

Definition setActiveTab (activeTab : string) (e : NavEvent) : string :=
  match e with
  | SidebarClick id => id
  | ViewAllProjects => "projects"
  end.

(** A session: the events arrive one by one; an event no control offers
    cannot occur and is skipped. *)
Definition navStep (roleName : option string) (activeTab : string)
    (e : NavEvent) : string :=
  if navOffered roleName activeTab e then setActiveTab activeTab e else activeTab.

Definition navRun (roleName : option string) (events : list NavEvent) : string :=
  fold_left (navStep roleName) events initialTab.

End Navigation.

(* ================================================================== *)
(** ** AppShell: the sidebar state *)
(* ================================================================== *)

Module AppShell.

Record ShellState := mkShell {
  sidebarOpen : bool;
  isMobile : bool
}.

(** [useState(true)], [useState(false)]. *)
Definition initialShell : ShellState :=
  {| sidebarOpen := true; isMobile := false |}.

(** [handleResize], with [window.innerWidth] as input. *)
Definition handleResize (innerWidth : Z) (s : ShellState) : ShellState :=
  let mobile := innerWidth <? 1024 in
  {| sidebarOpen := if mobile then false else true; isMobile := mobile |}.

Definition toggleSidebar (s : ShellState) : ShellState :=
  {| sidebarOpen := negb (sidebarOpen s); isMobile := isMobile s |}.

(** The overlay and its [onClick]. *)
Definition overlayShown (s : ShellState) : bool := isMobile s && sidebarOpen s.

Definition closeSidebar (s : ShellState) : ShellState :=
  {| sidebarOpen := false; isMobile := isMobile s |}.

Inductive ShellEvent :=
| Resize (innerWidth : Z)
| Toggle
| OverlayClick.

Definition shellStep (s : ShellState) (e : ShellEvent) : ShellState :=
  match e with
  | Resize w => handleResize w s
  | Toggle => toggleSidebar s
  | OverlayClick => if overlayShown s then closeSidebar s else s
  end.

(** The mount effect runs [handleResize] once, then events follow. *)
Definition shellRun (initialWidth : Z) (events : list ShellEvent) : ShellState :=
  fold_left shellStep events (handleResize initialWidth initialShell).

End AppShell.

(* ================================================================== *)
(** ** Header: the profile block *)
(* ================================================================== *)

Module Header.
Local Open Scope string_scope.

(** [a || b] on nullable strings: the empty string is falsy. *)
Definition orElse (a : option string) (b : string) : string :=
  match a with
  | None => b
  | Some EmptyString => b
  | Some v => v
  end.

(** [user?.fullName || user?.username || "Guest User"]; the user, when
    there is one, is given by its two name fields. *)
Definition displayName (user : option (option string * option string)) : string :=
  match user with
  | None => "Guest User"
  | Some (fullName, username) => orElse fullName (orElse username "Guest User")
  end.

(** [roleName || "User"]. *)
Definition roleLabel (roleName : option string) : string := orElse roleName "User".

End Header.

(* ================================================================== *)
(** ** OverviewTab: the priority table *)
(* ================================================================== *)

Module OverviewTable.
Import JS.

(** [projects.slice(0, 5)] and [recentReports.slice(0, 5)]. *)
Definition firstFive {A} (rows : list A) : list A := slice rows 0 5.

(** The "No projects to display." row. *)
Definition emptyRowShown (projects : list ProjectDto) : bool :=
  Z.of_nat (List.length projects) =? 0.

(** The completion cell: the label and the unrounded bar width. *)
Definition completionLabel (project : ProjectDto) : Z :=
  if 0 <? taskCount project
  then Math_round
         (inject_Z (completedTaskCount project) / inject_Z (taskCount project)
          * 100)%Q
  else 0.

Definition completionWidth (project : ProjectDto) : Q :=
  if 0 <? taskCount project
  then (inject_Z (completedTaskCount project) / inject_Z (taskCount project)
        * 100)%Q
  else 0%Q.

End OverviewTable.

(* ================================================================== *)
(** ** More sample data *)
(* ================================================================== *)

Module MoreSamples.
Local Open Scope string_scope.

(** The stand-in for [toLocaleDateString]: it echoes the date string. *)
Definition echoDate (s : string) : string := s.

(** A search that matched nothing, on a list of one record. *)
Definition nothingFound : ProjectsDisplay.Component :=
  ProjectsDisplay.mkComponent [Samples.alpha]
    (ProjectsDisplay.setSearchTerm ProjectsDisplay.initialState "zzz").

(** Ten records, first page. *)
Definition onPageOne : ProjectsDisplay.Component :=
  ProjectsDisplay.mkComponent Samples.ten ProjectsDisplay.initialState.

End MoreSamples.

(* ================================================================== *)
(** ** Facts about the host functions *)
(* ================================================================== *)

Module JSFacts.
Import JS.

Lemma Math_round_mono (x y : Q) : (x <= y)%Q -> Math_round x <= Math_round y.
Proof.
  intros Hxy. unfold Math_round. apply Qfloor_resp_le.
  apply Qplus_le_l. exact Hxy.
Qed.

Lemma Math_round_inject (n : Z) : Math_round (inject_Z n) = n.
Proof.
  unfold Math_round.
  assert (H : (inject_Z n + (1 # 2) == (2 * n + 1) # 2)%Q).
  { unfold Qeq, Qplus, inject_Z. cbn [Qnum Qden]. lia. }
  rewrite (Qfloor_comp _ _ H). unfold Qfloor. cbn [Qnum Qden].
  symmetry. apply Z.div_unique with (r := 1); lia.
Qed.

(** The sort with a comparator that may throw. *)
Lemma insertC_perm {A} (cmp : A -> A -> completion Q) (x : A) (l out : list A) :
  insertC cmp x l = Normal out -> Permutation (x :: l) out.
Proof.
  revert out. induction l as [ | y l IH]; intros out; cbn [insertC].
  - intros E. injection E as <-. apply Permutation_refl.
  - destruct (cmp x y) as [v | e]; cbn [bind]; [ | discriminate].
    destruct (negb (Qle_bool v 0)).
    + destruct (insertC cmp x l) as [r | e]; cbn [bind]; [ | discriminate].
      intros E. injection E as <-.
      apply perm_trans with (y :: x :: l); [apply perm_swap | ].
      apply perm_skip. now apply IH.
    + intros E. injection E as <-. apply Permutation_refl.
Qed.

Lemma sortC_perm {A} (cmp : A -> A -> completion Q) (l out : list A) :
  sortC cmp l = Normal out -> Permutation l out.
Proof.
  revert out. induction l as [ | x l IH]; intros out; cbn [sortC].
  - intros E. injection E as <-. apply perm_nil.
  - destruct (sortC cmp l) as [sorted | e]; cbn [bind]; [ | discriminate].
    intros E. apply insertC_perm in E.
    apply perm_trans with (x :: sorted); [ | exact E].
    apply perm_skip. now apply IH.
Qed.

(** With a comparator that never throws it is the sort by insertion. *)
Lemma insertC_total {A} (cmp : A -> A -> completion Q) (f : A -> A -> Q)
    (x : A) (l : list A) :
  (forall a b, cmp a b = Normal (f a b)) ->
  insertC cmp x l = Normal (insert f x l).
Proof.
  intros Hcmp. induction l as [ | y l IH]; cbn [insertC insert]; [reflexivity | ].
  rewrite Hcmp. cbn [bind]. unfold comes_after.
  destruct (negb (Qle_bool (f x y) 0)); [ | reflexivity].
  now rewrite IH.
Qed.

Lemma sortC_total {A} (cmp : A -> A -> completion Q) (f : A -> A -> Q)
    (l : list A) :
  (forall a b, cmp a b = Normal (f a b)) ->
  sortC cmp l = Normal (sort f l).
Proof.
  intros Hcmp. induction l as [ | x l IH]; cbn [sortC sort]; [reflexivity | ].
  rewrite IH. cbn [bind]. now apply insertC_total.
Qed.

(** With a comparator that always throws, the sort throws as soon as
    there are two elements to compare. *)
Lemma sortC_throwing {A} (cmp : A -> A -> completion Q) (e : exception)
    (l : list A) :
  (forall a b, cmp a b = Throw e) ->
  ((2 <= List.length l)%nat -> sortC cmp l = Throw e)
  /\ ((List.length l <= 1)%nat -> sortC cmp l = Normal l).
Proof.
  intros Hcmp. induction l as [ | x l [IH2 IH1]].
  - split; [cbn; lia | reflexivity].
  - cbn [sortC List.length]. split; intros Hlen.
    + destruct l as [ | y l]; [cbn in Hlen; lia | ].
      destruct l as [ | z l].
      * cbn. now rewrite Hcmp.
      * rewrite IH2 by (cbn; lia). reflexivity.
    + destruct l as [ | y l]; [reflexivity | cbn in Hlen; lia].
Qed.

End JSFacts.

(* ================================================================== *)
(** ** Progress *)
(* ================================================================== *)

Module ProgressFacts.
Import JS JSFacts ProjectsDisplay.

Lemma calculateProgress_zero (p : ProjectDto) :
  taskCount p = 0 -> calculateProgress p = 0.
Proof.
  intros H. unfold calculateProgress. rewrite H. reflexivity.
Qed.

Lemma calculateProgress_nonzero (p : ProjectDto) :
  taskCount p <> 0 ->
  calculateProgress p =
  Math_round (inject_Z (completedTaskCount p) / inject_Z (taskCount p) * 100)%Q.
Proof.
  intros H. unfold calculateProgress.
  destruct (Z.eqb_spec (taskCount p) 0) as [E | _]; [contradiction | reflexivity].
Qed.

Lemma ratio_bounds (p : ProjectDto) :
  0 <= completedTaskCount p <= taskCount p -> 0 < taskCount p ->
  (0 <= inject_Z (completedTaskCount p) / inject_Z (taskCount p) * 100 <= 100)%Q.
Proof.
  intros [Hc Hct] Ht.
  assert (Htq : (0 < inject_Z (taskCount p))%Q).
  { change 0%Q with (inject_Z 0). rewrite <- Zlt_Qlt. exact Ht. }
  assert (Hcq : (0 <= inject_Z (completedTaskCount p))%Q).
  { change 0%Q with (inject_Z 0). rewrite <- Zle_Qle. exact Hc. }
  assert (Hle : (inject_Z (completedTaskCount p) <= inject_Z (taskCount p))%Q).
  { rewrite <- Zle_Qle. exact Hct. }
  split.
  - apply Qmult_le_0_compat; [ | discriminate].
    apply Qle_shift_div_l; [exact Htq | ]. rewrite Qmult_0_l. exact Hcq.
  - setoid_replace 100%Q with (1 * 100)%Q at 2 by reflexivity.
    apply Qmult_le_compat_r; [ | discriminate].
    apply Qle_shift_div_r; [exact Htq | ]. rewrite Qmult_1_l. exact Hle.
Qed.


(** C1, as stated, fails: the quotient is not clamped, so a record whose
    completed count exceeds its task count has a progress above 100, and a
    negative completed count gives a negative progress. *)
Lemma calculateProgress_unclamped :
  calculateProgress Samples.overrun = 200
  /\ calculateProgress Samples.negative = -50
  /\ ~ (forall p : ProjectDto, 0 <= calculateProgress p <= 100).
Proof.
  assert (H : calculateProgress Samples.overrun = 200) by (vm_compute; reflexivity).
  split; [exact H | split; [vm_compute; reflexivity | ]].
  intros Hall. specialize (Hall Samples.overrun). rewrite H in Hall. lia.
Qed.

(** C1 (amended): the progress is 0 whenever the task count is 0, whatever
    the completed count; and for a record within the data model's bounds
    [0 <= completedTaskCount <= taskCount] it is an integer in [0, 100]. *)
Theorem calculateProgress_range (p : ProjectDto) :
  (taskCount p = 0 -> calculateProgress p = 0)
  /\ (0 <= completedTaskCount p <= taskCount p ->
      0 <= calculateProgress p <= 100).
Proof.
  split; [apply calculateProgress_zero | ].
  intros Hb.
  destruct (Z.eq_dec (taskCount p) 0) as [E | NE].
  - rewrite (calculateProgress_zero p E). lia.
  - assert (Ht : 0 < taskCount p) by lia.
    rewrite (calculateProgress_nonzero p NE).
    destruct (ratio_bounds p Hb Ht) as [Hlo Hhi].
    split.
    + rewrite <- (Math_round_inject 0). apply Math_round_mono. exact Hlo.
    + rewrite <- (Math_round_inject 100). apply Math_round_mono. exact Hhi.
Qed.

Lemma calculateProgress_range_witness :
  calculateProgress Samples.alpha = 0
  /\ 0 <= calculateProgress Samples.beta <= 100.
Proof.
  split.
  - apply (proj1 (calculateProgress_range Samples.alpha)). reflexivity.
  - apply (proj2 (calculateProgress_range Samples.beta)). simpl. lia.
Defined.

End ProgressFacts.

(* ================================================================== *)
(** ** Filtering *)
(* ================================================================== *)

Module FilterFacts.
Import JS ProjectsDisplay.
Local Open Scope string_scope.

Lemma prefix_app (sub s : string) :
  String.prefix sub s = true <-> exists post, s = sub ++ post.
Proof.
  revert s. induction sub as [ | a sub IH]; intros s.
  - split; [intros _; exists s; reflexivity | intros _; destruct s; reflexivity].
  - destruct s as [ | b s]; simpl.
    + split; [discriminate | intros [post H]; discriminate].
    + destruct (ascii_dec a b) as [-> | NE].
      * rewrite IH. split; intros [post H]; exists post.
        -- now rewrite H.
        -- now injection H.
      * split; [discriminate | ].
        intros [post H]. injection H as Hab _. congruence.
Qed.

Lemma includes_empty (s : string) : includes s EmptyString = true.
Proof. destruct s; reflexivity. Qed.

Lemma includes_nil (sub : string) :
  includes EmptyString sub = if String.prefix sub EmptyString then true else false.
Proof. reflexivity. Qed.

Lemma includes_cons (c : ascii) (s sub : string) :
  includes (String c s) sub =
  if String.prefix sub (String c s) then true else includes s sub.
Proof. reflexivity. Qed.

Lemma includes_spec (s sub : string) :
  includes s sub = true <-> Spec.Substring sub s.
Proof.
  unfold Spec.Substring.
  induction s as [ | c s IH]; [rewrite includes_nil | rewrite includes_cons].
  - destruct (String.prefix sub EmptyString) eqn:E.
    + split; [intros _ | reflexivity].
      apply prefix_app in E. destruct E as [post E].
      exists EmptyString, post. exact E.
    + split; [discriminate | ].
      intros (pre & post & H). destruct pre; [ | discriminate].
      assert (P : String.prefix sub EmptyString = true)
        by (apply prefix_app; exists post; exact H).
      congruence.
  - destruct (String.prefix sub (String c s)) eqn:E.
    + split; [intros _ | reflexivity].
      apply prefix_app in E. destruct E as [post E].
      exists EmptyString, post. exact E.
    + rewrite IH. split.
      * intros (pre & post & H). exists (String c pre), post. simpl. now rewrite H.
      * intros (pre & post & H). destruct pre as [ | c' pre].
        -- assert (P : String.prefix sub (String c s) = true)
             by (apply prefix_app; exists post; exact H).
           congruence.
        -- injection H as _ H. exists pre, post. exact H.
Qed.

Lemma lowerOrEmpty_orEmpty (o : option string) :
  lowerOrEmpty o = toLowerCase (orEmpty o).
Proof. destruct o; reflexivity. Qed.

Lemma matchesSearch_spec (term : string) (r : ProjectDto) :
  matchesSearch term r = true <-> Spec.matchesSearch term r.
Proof.
  unfold matchesSearch, Spec.matchesSearch.
  rewrite !orb_true_iff, !includes_spec, !lowerOrEmpty_orEmpty. tauto.
Qed.

Lemma matchesStatus_spec (f : string) (r : ProjectDto) :
  matchesStatus f r = true <-> Spec.matchesStatus f r.
Proof.
  unfold matchesStatus, Spec.matchesStatus.
  rewrite orb_true_iff, String.eqb_eq.
  destruct (status r) as [v | ].
  - rewrite String.eqb_eq. split; (intros [H | H]; [now left | right; congruence]).
  - split; (intros [H | H]; [now left | discriminate]).
Qed.

Lemma matches_spec (term f : string) (r : ProjectDto) :
  matchesSearch term r && matchesStatus f r = true <-> Spec.matches term f r.
Proof.
  unfold Spec.matches.
  rewrite andb_true_iff, matchesSearch_spec, matchesStatus_spec. tauto.
Qed.

(** C3: the filter keeps exactly the records that match the search term in
    one of the three text fields, case-insensitively and with null fields
    read as the empty string, and whose status passes the status filter
    ("all", or the record's status compared exactly); kept records stay in
    their input order. *)
Theorem filteredProjects_keeps_matching
    (projects : list ProjectDto) (searchTerm statusFilter : string) :
  Spec.Kept (Spec.matches searchTerm statusFilter) projects
            (filteredProjects projects searchTerm statusFilter)
  /\ (forall r, In r (filteredProjects projects searchTerm statusFilter)
                <-> In r projects /\ Spec.matches searchTerm statusFilter r).
Proof.
  split.
  - unfold filteredProjects.
    induction projects as [ | r ps IH]; simpl.
    + constructor.
    + destruct (matchesSearch searchTerm r && matchesStatus statusFilter r) eqn:E.
      * apply Spec.Kept_keep; [apply matches_spec; exact E | exact IH].
      * apply Spec.Kept_drop; [ | exact IH].
        intros H. apply matches_spec in H. congruence.
  - intros r. unfold filteredProjects. rewrite filter_In, matches_spec. tauto.
Qed.

(** C10: with the empty search term and the status filter "all" the filter
    returns the record list unchanged, records with all-null text fields
    included. *)
Theorem filteredProjects_identity (projects : list ProjectDto) :
  filteredProjects projects EmptyString "all" = projects
  /\ filteredProjects [Samples.blank "p0"] EmptyString "all" = [Samples.blank "p0"].
Proof.
  assert (H : forall ps, filteredProjects ps EmptyString "all" = ps).
  { intros ps. unfold filteredProjects.
    induction ps as [ | r ps IH]; [reflexivity | ].
    cbn [filter]. rewrite IH.
    assert (E : matchesSearch EmptyString r && matchesStatus "all" r = true).
    { unfold matchesSearch, matchesStatus. cbn [toLowerCase].
      rewrite !includes_empty. reflexivity. }
    now rewrite E. }
  split; apply H.
Qed.

(** The scenario of the specification: filtering the two sample records
    by status keeps the second one; the search ignores case. *)
Example filter_scenario :
  filteredProjects [Samples.alpha; Samples.beta] EmptyString "InProgress"
  = [Samples.beta]
  /\ filteredProjects [Samples.alpha; Samples.beta] "ALP" "all"
     = [Samples.alpha]
  /\ filteredProjects [Samples.alpha; Samples.beta] "alp" "inprogress" = [].
Proof. repeat split. Qed.

End FilterFacts.

(* ================================================================== *)
(** ** Priority *)
(* ================================================================== *)

Module PriorityFacts.
Import JS ProjectsDisplay.
Local Open Scope string_scope.

Lemma status_is_true (p : ProjectDto) (s : string) :
  status_is p s = true <-> status p = Some s.
Proof.
  unfold status_is. destruct (status p) as [v | ].
  - rewrite String.eqb_eq. split; congruence.
  - split; discriminate.
Qed.

Lemma status_is_false (p : ProjectDto) (s : string) :
  status_is p s = false <-> status p <> Some s.
Proof.
  rewrite <- status_is_true. destruct (status_is p s); split; congruence.
Qed.

(** C5: the priority rule.  On hold gives "High"; otherwise in progress
    with a progress strictly below 30 gives "Medium"; otherwise planning
    gives "Low"; everything else gives "Normal".  The scenario record with
    3 of 10 tasks done has progress exactly 30 and priority "Normal". *)
Theorem getPriority_rule (p : ProjectDto) :
  (status p = Some "OnHold" -> getPriority p = "High")
  /\ (status p = Some "InProgress" -> (calculateProgress p < 30)%Z ->
      getPriority p = "Medium")
  /\ (status p = Some "InProgress" -> (30 <= calculateProgress p)%Z ->
      getPriority p = "Normal")
  /\ (status p = Some "Planning" -> getPriority p = "Low")
  /\ (status p <> Some "OnHold" -> status p <> Some "InProgress" ->
      status p <> Some "Planning" -> getPriority p = "Normal")
  /\ calculateProgress Samples.beta = 30%Z
  /\ getPriority Samples.beta = "Normal".
Proof.
  unfold getPriority.
  repeat split; try reflexivity.
  - intros H. apply status_is_true in H. now rewrite H.
  - intros H Hlt.
    assert (H1 : status_is p "OnHold" = false)
      by (apply status_is_false; rewrite H; discriminate).
    apply status_is_true in H. rewrite H1, H.
    apply Z.ltb_lt in Hlt. now rewrite Hlt.
  - intros H Hge.
    assert (H1 : status_is p "OnHold" = false)
      by (apply status_is_false; rewrite H; discriminate).
    assert (H2 : status_is p "Planning" = false)
      by (apply status_is_false; rewrite H; discriminate).
    apply status_is_true in H. rewrite H1, H, H2.
    apply Z.ltb_ge in Hge. now rewrite Hge.
  - intros H.
    assert (H1 : status_is p "OnHold" = false)
      by (apply status_is_false; rewrite H; discriminate).
    assert (H2 : status_is p "InProgress" = false)
      by (apply status_is_false; rewrite H; discriminate).
    apply status_is_true in H. now rewrite H1, H2, H.
  - intros H1 H2 H3.
    apply status_is_false in H1, H2, H3. now rewrite H1, H2, H3.
Qed.

Lemma getPriority_rule_witness :
  getPriority (Samples.named "p5" "Eps" "OnHold" 4 1) = "High"
  /\ getPriority (Samples.named "p6" "Zeta" "InProgress" 100 29) = "Medium"
  /\ getPriority Samples.beta = "Normal"
  /\ getPriority Samples.alpha = "Low"
  /\ getPriority (Samples.named "p7" "Eta" "Completed" 4 4) = "Normal".
Proof.
  split; [ | split; [ | split; [ | split]]].
  - apply (proj1 (getPriority_rule _)). reflexivity.
  - apply (proj1 (proj2 (getPriority_rule _))); [reflexivity | vm_compute; reflexivity].
  - apply (proj1 (proj2 (proj2 (getPriority_rule _)))); [reflexivity | vm_compute; discriminate].
  - apply (proj1 (proj2 (proj2 (proj2 (getPriority_rule _))))). reflexivity.
  - apply (proj1 (proj2 (proj2 (proj2 (proj2 (getPriority_rule _)))))); simpl; discriminate.
Defined.

End PriorityFacts.

(* ================================================================== *)
(** ** Pagination *)
(* ================================================================== *)

Module PaginationFacts.
Import JS ProjectsDisplay.

Lemma Math_ceil_div (n m : Z) :
  Math_ceil (inject_Z n / inject_Z m)%Q = - ((- n) / m).
Proof.
  unfold Math_ceil, Qceiling. f_equal.
  rewrite Zdiv_Qdiv. apply Qfloor_comp.
  rewrite inject_Z_opp. unfold Qdiv. ring.
Qed.

Lemma totalPages_div (l : list ProjectDto) :
  totalPages l = (Z.of_nat (List.length l) + 8) / 9.
Proof.
  unfold totalPages, itemsPerPage. rewrite Math_ceil_div.
  Z.to_euclidean_division_equations. lia.
Qed.

Lemma firstn_beyond {A} (a b : nat) (l : list A) :
  (List.length l <= a)%nat -> (List.length l <= b)%nat -> firstn a l = firstn b l.
Proof. intros Ha Hb. now rewrite !firstn_all2. Qed.

(** A slice with a non-negative start, written with [firstn] and [skipn]. *)
Lemma slice_window {A} (l : list A) (start size : Z) :
  0 <= start -> 0 <= size ->
  slice l start (start + size) =
  firstn (Z.to_nat size) (skipn (Z.to_nat start) l).
Proof.
  intros Hs Hz. unfold slice, rel_index.
  set (len := Z.of_nat (List.length l)).
  assert (Hlen : 0 <= len) by (unfold len; lia).
  destruct (Z.ltb_spec start 0) as [? | _]; [lia | ].
  destruct (Z.ltb_spec (start + size) 0) as [? | _]; [lia | ].
  destruct (Z.le_gt_cases len start) as [Hout | Hin].
  - (* the window starts beyond the end *)
    rewrite !skipn_all2 by (unfold len in *; lia).
    now rewrite !firstn_nil.
  - replace (Z.min start len) with start by lia.
    destruct (Z.le_gt_cases (start + size) len) as [Hfit | Hcut].
    + replace (Z.min (start + size) len - start) with size by lia. reflexivity.
    + apply firstn_beyond; rewrite length_skipn; unfold len in *; lia.
Qed.

Lemma slice_length_le {A} (l : list A) (start size : Z) :
  0 <= size -> (List.length (slice l start (start + size)) <= Z.to_nat size)%nat.
Proof.
  intros Hz. unfold slice. rewrite length_firstn.
  set (len := Z.of_nat (List.length l)).
  assert (H : rel_index len (start + size) - rel_index len start <= size).
  { unfold rel_index.
    destruct (Z.ltb_spec start 0), (Z.ltb_spec (start + size) 0); lia. }
  lia.
Qed.

Lemma paginatedProjects_window (l : list ProjectDto) (p : Z) :
  1 <= p ->
  paginatedProjects l p = firstn 9 (skipn (Z.to_nat (9 * (p - 1))) l).
Proof.
  intros Hp. unfold paginatedProjects, itemsPerPage.
  replace (p * 9) with ((p - 1) * 9 + 9) by lia.
  rewrite slice_window by lia.
  replace ((p - 1) * 9) with (9 * (p - 1)) by lia. reflexivity.
Qed.

Lemma firstn_plus {A} (a b : nat) (l : list A) :
  firstn (a + b) l = firstn a l ++ firstn b (skipn a l).
Proof.
  revert l. induction a as [ | a IH]; intros l; [reflexivity | ].
  destruct l as [ | x l]; simpl.
  - now rewrite firstn_nil.
  - now rewrite IH.
Qed.

Lemma chunks_concat {A} (k m : nat) (l : list A) :
  List.concat (map (fun i => firstn k (skipn (k * i) l)) (seq 0 m)) = firstn (k * m) l.
Proof.
  induction m as [ | m IH].
  - rewrite Nat.mul_0_r. reflexivity.
  - rewrite seq_S, map_app, concat_app, IH. simpl.
    rewrite app_nil_r, <- firstn_plus. f_equal. lia.
Qed.

Lemma pages_concat (l : list ProjectDto) :
  List.concat (map (paginatedProjects l) (pageButtons (totalPages l))) = l.
Proof.
  unfold pageButtons. rewrite map_map.
  rewrite (map_ext _ (fun i => firstn 9 (skipn (9 * i) l))).
  - rewrite chunks_concat. apply firstn_all2.
    rewrite totalPages_div.
    assert (H : Z.of_nat (List.length l)
                <= 9 * ((Z.of_nat (List.length l) + 8) / 9)).
    { Z.to_euclidean_division_equations. lia. }
    assert (H0 : 0 <= (Z.of_nat (List.length l) + 8) / 9).
    { Z.to_euclidean_division_equations. lia. }
    lia.
  - intros i. rewrite paginatedProjects_window by lia.
    do 2 f_equal. lia.
Qed.

(** C2: pagination with the page size 9.  [totalPages] is the ceiling of
    n / 9; page p (counted from 1) is the window of the sorted list that
    starts at index 9 (p - 1) and holds at most 9 items; every page has at
    most 9 items; the pages 1..totalPages, concatenated, are the sorted
    list, so their lengths add up to n; and 10 records make 2 pages, the
    second of which has exactly 1 record. *)
Theorem pagination_slices (sorted : list ProjectDto) :
  let n := Z.of_nat (List.length sorted) in
  (9 * (totalPages sorted - 1) < n <= 9 * totalPages sorted)
  /\ (forall p, 1 <= p ->
        paginatedProjects sorted p
        = firstn 9 (skipn (Z.to_nat (9 * (p - 1))) sorted))
  /\ (forall p, (List.length (paginatedProjects sorted p) <= 9)%nat)
  /\ List.concat (map (paginatedProjects sorted) (pageButtons (totalPages sorted)))
     = sorted
  /\ list_sum (map (fun p => List.length (paginatedProjects sorted p))
                   (pageButtons (totalPages sorted)))
     = List.length sorted
  /\ (n = 10 ->
      totalPages sorted = 2
      /\ List.length (paginatedProjects sorted 2) = 1%nat).
Proof.
  intros n. subst n.
  split; [ | split; [ | split; [ | split; [ | split]]]].
  - rewrite totalPages_div. Z.to_euclidean_division_equations. lia.
  - intros p Hp. now apply paginatedProjects_window.
  - intros p. unfold paginatedProjects, itemsPerPage.
    replace (p * 9) with ((p - 1) * 9 + 9) by lia.
    apply (slice_length_le sorted ((p - 1) * 9) 9). lia.
  - apply pages_concat.
  - transitivity
      (List.length (List.concat (map (paginatedProjects sorted)
                                     (pageButtons (totalPages sorted))))).
    + rewrite length_concat, map_map. reflexivity.
    + now rewrite pages_concat.
  - intros Hn. split.
    + rewrite totalPages_div, Hn. reflexivity.
    + rewrite paginatedProjects_window by lia.
      rewrite length_firstn, length_skipn.
      change (Z.to_nat (9 * (2 - 1))) with 9%nat. lia.
Qed.

Lemma pagination_slices_witness :
  paginatedProjects [Samples.alpha; Samples.beta] 1 = [Samples.alpha; Samples.beta]
  /\ totalPages (repeat Samples.alpha 10) = 2.
Proof.
  split.
  - rewrite (proj1 (proj2 (pagination_slices [Samples.alpha; Samples.beta])) 1).
    + reflexivity.
    + lia.
  - apply (proj2 (proj2 (proj2 (proj2 (proj2
             (pagination_slices (repeat Samples.alpha 10))))))).
    reflexivity.
Defined.

End PaginationFacts.

(* ================================================================== *)
(** ** Completion message *)
(* ================================================================== *)

Module MessageFacts.
Import JS ProjectsDisplay.
Local Open Scope string_scope.

Section WithHost.
Context `{Host}.

Lemma Math_floor_div (n m : Z) :
  Math_floor (inject_Z n / inject_Z m)%Q = (n / m)%Z.
Proof. unfold Math_floor. now rewrite Zdiv_Qdiv. Qed.

(** C6: the completion message.  Progress 100 gives "Completed" before
    anything else.  Otherwise, with an end date that parses, the whole
    number of days left (the floor of the millisecond difference divided
    by a day) decides: negative gives "Overdue", below 7 the clock message
    with the day count, below 30 the calendar message with the day count.
    In every remaining case (no end date, 30 days or more, an end date
    that does not parse) the message is the progress percentage.  The day
    count is null exactly for a missing or empty end date. *)
Theorem getCompletionMessage_cases (now : Z) (p : ProjectDto) :
  let progress := calculateProgress p in
  let days := getDaysUntilEnd now (estimatedEndDate p) in
  let percent := "🚧 " ++ string_of_Z progress ++ "% complete" in
  (progress = 100%Z -> getCompletionMessage now p = "✅ Completed")
  /\ (progress <> 100%Z -> forall n, days = Some (Num n) ->
        ((n < 0)%Z -> getCompletionMessage now p = "⚠️ Overdue")
        /\ ((0 <= n < 7)%Z ->
            getCompletionMessage now p = "⏰ Due in " ++ string_of_Z n ++ " days")
        /\ ((7 <= n < 30)%Z ->
            getCompletionMessage now p = "📅 Due in " ++ string_of_Z n ++ " days")
        /\ ((30 <= n)%Z -> getCompletionMessage now p = percent))
  /\ (progress <> 100%Z -> days = None -> getCompletionMessage now p = percent)
  /\ (progress <> 100%Z -> days = Some NaN -> getCompletionMessage now p = percent)
  /\ (estimatedEndDate p = None \/ estimatedEndDate p = Some EmptyString <->
      days = None)
  /\ (forall e t, estimatedEndDate p = Some e -> Date_getTime e = Some t ->
        e <> EmptyString ->
        exists n, days = Some (Num n)
                  /\ (msPerDay * n <= t - now < msPerDay * (n + 1))%Z).
Proof.
  intros progress days percent. unfold getCompletionMessage.
  fold progress. fold days. fold percent.
  split; [ | split; [ | split; [ | split; [ | split]]]].
  - intros E. apply Z.eqb_eq in E. now rewrite E.
  - intros NE n Hd. apply Z.eqb_neq in NE. rewrite NE, Hd.
    unfold number_ltb, string_of_number.
    repeat split; intros Hn.
    + apply Z.ltb_lt in Hn. now rewrite Hn.
    + destruct (Z.ltb_spec n 0); [lia | ].
      destruct (Z.ltb_spec n 7); [reflexivity | lia].
    + destruct (Z.ltb_spec n 0); [lia | ].
      destruct (Z.ltb_spec n 7); [lia | ].
      destruct (Z.ltb_spec n 30); [reflexivity | lia].
    + destruct (Z.ltb_spec n 0); [lia | ].
      destruct (Z.ltb_spec n 7); [lia | ].
      destruct (Z.ltb_spec n 30); [lia | reflexivity].
  - intros NE Hd. apply Z.eqb_neq in NE. now rewrite NE, Hd.
  - intros NE Hd. apply Z.eqb_neq in NE. now rewrite NE, Hd.
  - subst days. unfold getDaysUntilEnd.
    destruct (estimatedEndDate p) as [[ | c e] | ].
    + split; [reflexivity | intros _; now right].
    + destruct (Date_getTime (String c e)); split;
        try discriminate; intros [E | E]; discriminate.
    + split; [reflexivity | intros _; now left].
  - intros e t He Ht Hne. subst days. rewrite He. unfold getDaysUntilEnd.
    destruct e as [ | c e]; [congruence | ]. rewrite Ht.
    exists ((t - now) / msPerDay)%Z. split.
    + now rewrite Math_floor_div.
    + unfold msPerDay. Z.to_euclidean_division_equations. lia.
Qed.

End WithHost.

Lemma getCompletionMessage_cases_witness :
  @getCompletionMessage Samples.host Samples.noon (Samples.due "a" "Completed" 4 4 None)
  = "✅ Completed"
  /\ @getCompletionMessage Samples.host Samples.noon
       (Samples.due "b" "InProgress" 4 1 (Some "2023-12-25")) = "⚠️ Overdue"
  /\ @getCompletionMessage Samples.host Samples.noon
       (Samples.due "c" "InProgress" 4 1 (Some "2024-01-04"))
     = "⏰ Due in 2 days"
  /\ @getCompletionMessage Samples.host Samples.noon
       (Samples.due "d" "InProgress" 4 1 (Some "2024-01-21"))
     = "📅 Due in 19 days"
  /\ @getCompletionMessage Samples.host Samples.noon
       (Samples.due "e" "InProgress" 4 1 (Some "2024-03-01"))
     = "🚧 25% complete"
  /\ @getCompletionMessage Samples.host Samples.noon
       (Samples.due "f" "InProgress" 4 1 None) = "🚧 25% complete"
  /\ @getCompletionMessage Samples.host Samples.noon
       (Samples.due "g" "InProgress" 4 1 (Some "soon")) = "🚧 25% complete"
  /\ @getDaysUntilEnd Samples.host Samples.noon (Some "2023-12-25") = Some (Num (-8)).
Proof.
  split; [ | split; [ | split; [ | split; [ | split; [ | split; [ | split]]]]]].
  - apply (proj1 (@getCompletionMessage_cases Samples.host Samples.noon _)).
    vm_compute. reflexivity.
  - refine (proj1 (proj1 (proj2 (@getCompletionMessage_cases Samples.host Samples.noon _))
                     _ (-8)%Z _) _).
    + vm_compute. discriminate.
    + vm_compute. reflexivity.
    + lia.
  - refine (proj1 (proj2 (proj1 (proj2 (@getCompletionMessage_cases Samples.host Samples.noon _))
                     _ 2%Z _)) _).
    + vm_compute. discriminate.
    + vm_compute. reflexivity.
    + lia.
  - refine (proj1 (proj2 (proj2 (proj1 (proj2
              (@getCompletionMessage_cases Samples.host Samples.noon _)) _ 19%Z _))) _).
    + vm_compute. discriminate.
    + vm_compute. reflexivity.
    + lia.
  - refine (proj2 (proj2 (proj2 (proj1 (proj2
              (@getCompletionMessage_cases Samples.host Samples.noon _)) _ 59%Z _))) _).
    + vm_compute. discriminate.
    + vm_compute. reflexivity.
    + lia.
  - refine (proj1 (proj2 (proj2 (@getCompletionMessage_cases Samples.host Samples.noon _))) _ _).
    + vm_compute. discriminate.
    + vm_compute. reflexivity.
  - refine (proj1 (proj2 (proj2 (proj2
              (@getCompletionMessage_cases Samples.host Samples.noon _)))) _ _).
    + vm_compute. discriminate.
    + vm_compute. reflexivity.
  - vm_compute. reflexivity.
Defined.

End MessageFacts.

(* ================================================================== *)
(** ** KPI aggregation *)
(* ================================================================== *)

Module StatsFacts.
Import JS.

Lemma utilizationDenominator_floor (projects : list ProjectDto) :
  (1 <= ProjectManagement.utilizationDenominator projects)%Q.
Proof.
  unfold ProjectManagement.utilizationDenominator, Math_max.
  apply Q.le_max_r.
Qed.

(** The reduce of the statistics object is the sum over the records. *)
Lemma fold_sum_from (f : ProjectDto -> option Q) (projects : list ProjectDto)
    (start : Q) :
  (fold_left (fun sum p => sum + orZero (f p)) projects start
   == start + Spec.sumOf f projects)%Q.
Proof.
  revert start. induction projects as [ | p ps IH]; intros start;
    cbn [fold_left Spec.sumOf].
  - ring.
  - rewrite IH. ring.
Qed.

Lemma reduceSum_sumOf (f : ProjectDto -> option Q) (projects : list ProjectDto) :
  (ProjectManagement.reduceSum f projects == Spec.sumOf f projects)%Q.
Proof.
  unfold ProjectManagement.reduceSum. rewrite fold_sum_from. ring.
Qed.

Lemma utilizationDenominator_value (projects : list ProjectDto) :
  ((1 <= Spec.sumOf revenueValue projects)%Q ->
   (ProjectManagement.utilizationDenominator projects
    == Spec.sumOf revenueValue projects)%Q)
  /\ ((Spec.sumOf revenueValue projects <= 1)%Q ->
      (ProjectManagement.utilizationDenominator projects == 1)%Q).
Proof.
  unfold ProjectManagement.utilizationDenominator, Math_max.
  rewrite (reduceSum_sumOf revenueValue projects).
  split; intros Hb.
  - now apply Q.max_l.
  - now apply Q.max_r.
Qed.

(** C8: the budget-utilization KPI.  The budget, spent and capacity
    totals are the sums of the records' revenue, spent and capacity
    values, a missing value counting as 0.  The denominator is the budget
    total raised to at least 1: the budget total itself when that is at
    least 1, and 1 otherwise; so it is never zero.  For a non-empty list
    the KPI is spent total / denominator * 100; for the empty list it is 0
    and so are the three totals.  The overview tab shows the value of the
    statistics object it is given. *)
Theorem budgetUtilization_guarded (projects : list ProjectDto) :
  let stats := ProjectManagement.projectStats projects in
  let budget := Spec.sumOf revenueValue projects in
  let spent := Spec.sumOf ftsValue projects in
  let denominator := ProjectManagement.utilizationDenominator projects in
  (totalBudget stats == budget)%Q
  /\ (totalSpent stats == spent)%Q
  /\ (totalCapacity stats == Spec.sumOf totalCapacityKw projects)%Q
  /\ (1 <= denominator)%Q
  /\ ~ (denominator == 0)%Q
  /\ ((1 <= budget)%Q -> (denominator == budget)%Q)
  /\ ((budget <= 1)%Q -> (denominator == 1)%Q)
  /\ (projects <> [] ->
      exists u, budgetUtilization stats = Some u
                /\ (u == spent / denominator * 100)%Q
                /\ ((1 <= budget)%Q -> (u == spent / budget * 100)%Q)
                /\ ((budget <= 1)%Q -> (u == spent * 100)%Q))
  /\ (projects = [] ->
      budgetUtilization stats = Some 0%Q
      /\ totalBudget stats = 0%Q /\ totalSpent stats = 0%Q
      /\ totalCapacity stats = 0%Q)
  /\ Some (OverviewTab.budgetUtilization projects (Some stats))
     = budgetUtilization stats.
Proof.
  intros stats budget spent denominator.
  assert (Hd : (1 <= denominator)%Q) by apply utilizationDenominator_floor.
  destruct (utilizationDenominator_value projects) as [Hbig Hsmall].
  fold budget in Hbig, Hsmall. fold denominator in Hbig, Hsmall.
  split; [apply reduceSum_sumOf | ].
  split; [apply reduceSum_sumOf | ].
  split; [apply reduceSum_sumOf | ].
  split; [exact Hd | ].
  split.
  { intros E. apply (Qlt_not_le 0 1); [reflexivity | ].
    apply Qle_trans with denominator; [exact Hd | ].
    rewrite E. apply Qle_refl. }
  split; [exact Hbig | ].
  split; [exact Hsmall | ].
  split.
  { intros NE. destruct projects as [ | p ps]; [congruence | ].
    exists (ProjectManagement.reduceSum ftsValue (p :: ps) / denominator * 100)%Q.
    split; [reflexivity | ].
    assert (Hs : (ProjectManagement.reduceSum ftsValue (p :: ps) == spent)%Q)
      by apply reduceSum_sumOf.
    split; [now rewrite Hs | ].
    split; intros Hb.
    - rewrite Hs, (Hbig Hb). reflexivity.
    - rewrite Hs, (Hsmall Hb). field. }
  split.
  { intros ->. repeat split. }
  reflexivity.
Qed.

Lemma budgetUtilization_guarded_witness :
  (totalBudget (ProjectManagement.projectStats Samples.books) == 500)%Q
  /\ (totalSpent (ProjectManagement.projectStats Samples.books) == 125)%Q
  /\ (totalCapacity (ProjectManagement.projectStats Samples.books) == 12)%Q
  /\ (exists u, budgetUtilization (ProjectManagement.projectStats Samples.books)
                = Some u
                /\ (u == 25)%Q)
  /\ (exists u, budgetUtilization
                  (ProjectManagement.projectStats
                     [Samples.funded "u" None (Some 50%Q) None]) = Some u
                /\ (u == 5000)%Q)
  /\ budgetUtilization (ProjectManagement.projectStats []) = Some 0%Q.
Proof.
  split; [ | split; [ | split; [ | split; [ | split]]]].
  - exact (proj1 (budgetUtilization_guarded Samples.books)).
  - exact (proj1 (proj2 (budgetUtilization_guarded Samples.books))).
  - exact (proj1 (proj2 (proj2 (budgetUtilization_guarded Samples.books)))).
  - destruct (proj1 (proj2 (proj2 (proj2 (proj2 (proj2 (proj2 (proj2
               (budgetUtilization_guarded Samples.books))))))))
               ltac:(discriminate)) as (u & Eu & _ & Hbig & _).
    exists u. split; [exact Eu | ].
    rewrite Hbig; [reflexivity | ]. vm_compute. discriminate.
  - destruct (proj1 (proj2 (proj2 (proj2 (proj2 (proj2 (proj2 (proj2
               (budgetUtilization_guarded
                  [Samples.funded "u" None (Some 50%Q) None]))))))))
               ltac:(discriminate)) as (u & Eu & _ & _ & Hsmall).
    exists u. split; [exact Eu | ].
    rewrite Hsmall; [reflexivity | ]. vm_compute. discriminate.
  - apply (proj1 (proj2 (proj2 (proj2 (proj2 (proj2 (proj2 (proj2 (proj2
             (budgetUtilization_guarded [])))))))))).
    reflexivity.
Defined.

End StatsFacts.

(* ================================================================== *)
(** ** Active-projects count *)
(* ================================================================== *)

Module ActiveCountFacts.
Import OverviewTab.
Local Open Scope string_scope.

(** C9: the active-projects count.  The data source is asked for the
    statuses "InProgress,Planning,OnHold".  When the request fails, the
    error is logged and the card shows the length of the loaded list; the
    state has no error field, so nothing else changes.  When it succeeds,
    the card shows the returned [totalCount], whatever the loaded list
    is, and nothing is logged. *)
Theorem fetchCount_outcomes
    (getAllProjects : ProjectQuery -> Outcome)
    (projects : list ProjectDto) (st : OverviewState) :
  let st' := fetchCount getAllProjects projects st in
  statusList activeQuery = "InProgress,Planning,OnHold"
  /\ (forall error, getAllProjects activeQuery = Rejected error ->
        activeProjectsKpi st' = Z.of_nat (List.length projects)
        /\ console st' = (console st ++ [("Error fetching count", error)])%list)
  /\ (forall response, getAllProjects activeQuery = Resolved response ->
        activeProjectsKpi st' = totalCount response
        /\ console st' = console st
        /\ forall others, fetchCount getAllProjects others st = st').
Proof.
  intros st'. subst st'. unfold fetchCount, activeProjectsKpi.
  split; [reflexivity | split].
  - intros error E. rewrite E. split; reflexivity.
  - intros response E. rewrite E. repeat split.
Qed.

Lemma fetchCount_outcomes_witness :
  let failing := fun _ : ProjectQuery => Rejected "network down" in
  let serving := fun _ : ProjectQuery => Resolved (mkResponse [] 7) in
  let loaded := [Samples.alpha; Samples.beta] in
  activeProjectsKpi (fetchCount failing loaded initialOverview) = 2%Z
  /\ activeProjectsKpi (fetchCount serving loaded initialOverview) = 7%Z.
Proof.
  intros failing serving loaded. split.
  - apply (proj1 (proj2 (fetchCount_outcomes failing loaded initialOverview))
             "network down" eq_refl).
  - apply (proj1 (proj2 (proj2 (fetchCount_outcomes serving loaded initialOverview))
                    (mkResponse [] 7) eq_refl)).
Defined.

End ActiveCountFacts.

(* ================================================================== *)
(** ** The comparator: when it returns and when it throws *)
(* ================================================================== *)

Module ComparatorFacts.
Import JS ProjectsDisplay ProjectsDisplayView.
Local Open Scope string_scope.

Section WithHost.
Context `{Host}.

(** What the comparator returns, key by key. *)
Lemma compare_name (a b : ProjectDto) :
  compareProjects "name" a b = Normal (Spec.compareName a b).
Proof. reflexivity. Qed.

Lemma compare_status (a b : ProjectDto) :
  compareProjects "status" a b = Normal (Spec.compareStatus a b).
Proof. reflexivity. Qed.

Lemma compare_capacity (a b : ProjectDto) :
  compareProjects "capacity" a b = Normal (Spec.compareCapacity a b).
Proof. reflexivity. Qed.

Lemma compare_startDate (a b : ProjectDto) :
  compareProjects "startDate" a b = Normal (Spec.compareStartDate a b).
Proof.
  unfold Spec.compareStartDate, Spec.startDifference. cbn.
  destruct (Date_getTime (startDate a)), (Date_getTime (startDate b));
    reflexivity.
Qed.

Lemma compare_progress (a b : ProjectDto) :
  compareProjects "progress" a b = Throw (ReferenceError "calculateProgress").
Proof. reflexivity. Qed.

Lemma sorted_name (l : list ProjectDto) :
  sortedProjects "name" l = Normal (sort Spec.compareName l).
Proof. apply JSFacts.sortC_total, compare_name. Qed.

Lemma sorted_status (l : list ProjectDto) :
  sortedProjects "status" l = Normal (sort Spec.compareStatus l).
Proof. apply JSFacts.sortC_total, compare_status. Qed.

Lemma sorted_capacity (l : list ProjectDto) :
  sortedProjects "capacity" l = Normal (sort Spec.compareCapacity l).
Proof. apply JSFacts.sortC_total, compare_capacity. Qed.

Lemma sorted_startDate (l : list ProjectDto) :
  sortedProjects "startDate" l = Normal (sort Spec.compareStartDate l).
Proof. apply JSFacts.sortC_total, compare_startDate. Qed.

Lemma sorted_progress (l : list ProjectDto) :
  ((2 <= List.length l)%nat ->
   sortedProjects "progress" l = Throw (ReferenceError "calculateProgress"))
  /\ ((List.length l <= 1)%nat -> sortedProjects "progress" l = Normal l).
Proof. apply JSFacts.sortC_throwing, compare_progress. Qed.

Lemma compare_unknown (k : string) (a b : ProjectDto) :
  ~ In k sortOptions -> compareProjects k a b = Normal (Spec.compareNothing a b).
Proof.
  intros Hk. unfold compareProjects.
  destruct (String.eqb_spec k "name") as [-> | _];
    [exfalso; apply Hk; cbn; tauto | ].
  destruct (String.eqb_spec k "status") as [-> | _];
    [exfalso; apply Hk; cbn; tauto | ].
  destruct (String.eqb_spec k "capacity") as [-> | _];
    [exfalso; apply Hk; cbn; tauto | ].
  destruct (String.eqb_spec k "startDate") as [-> | _];
    [exfalso; apply Hk; cbn; tauto | ].
  destruct (String.eqb_spec k "progress") as [-> | _];
    [exfalso; apply Hk; cbn; tauto | ].
  reflexivity.
Qed.

(** The six cases of the sort key. *)
Lemma key_cases (k : string) :
  k = "name" \/ k = "status" \/ k = "capacity" \/ k = "startDate"
  \/ k = "progress" \/ ~ In k sortOptions.
Proof.
  destruct (String.eqb_spec k "name"); [tauto | ].
  destruct (String.eqb_spec k "status"); [tauto | ].
  destruct (String.eqb_spec k "capacity"); [tauto | ].
  destruct (String.eqb_spec k "startDate"); [tauto | ].
  destruct (String.eqb_spec k "progress"); [tauto | ].
  do 5 right. cbn. intuition congruence.
Qed.

(** Every key but "progress" has a comparator that returns a number. *)
Lemma compare_returns (k : string) :
  k <> "progress" ->
  exists f, forall a b, compareProjects k a b = Normal (f a b).
Proof.
  intros Hk.
  destruct (key_cases k) as [-> | [-> | [-> | [-> | [-> | Hu]]]]].
  - exists Spec.compareName. apply compare_name.
  - exists Spec.compareStatus. apply compare_status.
  - exists Spec.compareCapacity. apply compare_capacity.
  - exists Spec.compareStartDate. apply compare_startDate.
  - congruence.
  - exists Spec.compareNothing. intros a b. now apply compare_unknown.
Qed.

Lemma sortedProjects_returns (k : string) (l : list ProjectDto) :
  k <> "progress" \/ (List.length l <= 1)%nat ->
  exists out, sortedProjects k l = Normal out.
Proof.
  destruct (String.eqb_spec k "progress") as [-> | Hk].
  - intros [Hk | Hl]; [congruence | ].
    exists l. now apply sorted_progress.
  - intros _. destruct (compare_returns k Hk) as (f & Hf).
    exists (sort f l). now apply JSFacts.sortC_total.
Qed.

End WithHost.

End ComparatorFacts.

(* ================================================================== *)
(** ** The page state *)
(* ================================================================== *)

Module PageFacts.
Import JS ProjectsDisplay.
Local Open Scope string_scope.

Lemma viewMode_eqb_eq (a b : ViewMode) : viewMode_eqb a b = true <-> a = b.
Proof. destruct a, b; simpl; split; congruence. Qed.

Lemma depsChanged_false (old new : ViewState) :
  depsChanged old new = false <->
  searchTerm old = searchTerm new
  /\ statusFilter old = statusFilter new
  /\ viewMode old = viewMode new.
Proof.
  unfold depsChanged.
  rewrite negb_false_iff, !andb_true_iff, !String.eqb_eq, viewMode_eqb_eq.
  tauto.
Qed.

Lemma totalPages_length (l l' : list ProjectDto) :
  List.length l = List.length l' -> totalPages l = totalPages l'.
Proof. intros E. now rewrite !PaginationFacts.totalPages_div, E. Qed.

(** The pagination bar is shown only when there are at least two pages. *)
Lemma bar_shown_two_pages (sorted : list ProjectDto) :
  (itemsPerPage <? Z.of_nat (List.length sorted))%Z = true ->
  (2 <= totalPages sorted)%Z.
Proof.
  rewrite PaginationFacts.totalPages_div. unfold itemsPerPage.
  intros Hn. apply Z.ltb_lt in Hn. Z.to_euclidean_division_equations. lia.
Qed.

Lemma nonempty_one_page (sorted : list ProjectDto) :
  sorted <> [] -> (1 <= totalPages sorted)%Z.
Proof.
  intros NE. rewrite PaginationFacts.totalPages_div.
  destruct sorted as [ | x l]; [congruence | ].
  cbn [List.length]. Z.to_euclidean_division_equations. lia.
Qed.

(** What a handler does to the page, before the effect runs. *)
Lemma handle_page (c : Component) (sorted : list ProjectDto) (e : Event) :
  offeredIn sorted (view c) e = true ->
  (1 <= currentPage (view c) <= Z.max 1 (totalPages sorted))%Z ->
  (forall ps, e <> ProjectsProp ps) ->
  projects (handle c (totalPages sorted) e) = projects c
  /\ (1 <= currentPage (view (handle c (totalPages sorted) e))
      <= Z.max 1 (totalPages sorted))%Z.
Proof.
  intros Hoff [Hlo Hhi] Hev.
  destruct e as [term | f | | k | m | | | i | ps];
    cbn [handle view projects currentPage setSearchTerm setStatusFilter
         setSortBy setViewMode setCurrentPage].
  - split; [reflexivity | lia].
  - split; [reflexivity | lia].
  - split; [reflexivity | lia].
  - split; [reflexivity | lia].
  - split; [reflexivity | lia].
  - (* Previous *)
    unfold Math_maxZ. split; [reflexivity | lia].
  - (* Next *)
    cbn [offeredIn] in Hoff.
    apply andb_true_iff in Hoff. destruct Hoff as [Hbar _].
    apply bar_shown_two_pages in Hbar.
    unfold Math_minZ. split; [reflexivity | lia].
  - (* PageButton *)
    cbn [offeredIn] in Hoff.
    apply andb_true_iff in Hoff. destruct Hoff as [Hoff Hi].
    apply andb_true_iff in Hoff. destruct Hoff as [_ H0].
    apply Z.leb_le in H0. apply Z.ltb_lt in Hi.
    split; [reflexivity | lia].
  - (* ProjectsProp *)
    exfalso. now apply (Hev ps).
Qed.

Lemma handle_low (c : Component) (sorted : list ProjectDto) (e : Event) :
  offeredIn sorted (view c) e = true ->
  (1 <= currentPage (view c))%Z ->
  (1 <= currentPage (view (handle c (totalPages sorted) e)))%Z.
Proof.
  intros Hoff Hlo.
  destruct e as [term | f | | k | m | | | i | ps];
    cbn [handle view projects currentPage setSearchTerm setStatusFilter
         setSortBy setViewMode setCurrentPage]; try exact Hlo.
  - unfold Math_maxZ. lia.
  - cbn [offeredIn] in Hoff.
    apply andb_true_iff in Hoff. destruct Hoff as [Hbar _].
    apply bar_shown_two_pages in Hbar. unfold Math_minZ. lia.
  - cbn [offeredIn] in Hoff.
    apply andb_true_iff in Hoff. destruct Hoff as [Hoff _].
    apply andb_true_iff in Hoff. destruct Hoff as [_ H0].
    apply Z.leb_le in H0. lia.
Qed.

Lemma handle_pagination_deps (c : Component) (pages : Z) (e : Event) :
  match e with
  | Previous | Next | PageButton _ | SelectSort _ | ProjectsProp _ =>
      depsChanged (view c) (view (handle c pages e)) = false
  | _ => True
  end.
Proof.
  destruct e; simpl; try exact I;
    apply depsChanged_false; repeat split.
Qed.

Lemma resetEffect_deps (old new : ViewState) :
  searchTerm (resetEffect old new) = searchTerm new
  /\ statusFilter (resetEffect old new) = statusFilter new
  /\ viewMode (resetEffect old new) = viewMode new
  /\ sortBy (resetEffect old new) = sortBy new.
Proof.
  unfold resetEffect. destruct (depsChanged old new); repeat split.
Qed.

Lemma resetEffect_page (old new : ViewState) :
  currentPage (resetEffect old new)
  = if depsChanged old new then 1%Z else currentPage new.
Proof. unfold resetEffect. now destruct (depsChanged old new). Qed.

Section WithHost.
Context `{Host}.

Lemma derivedList_length (ps : list ProjectDto) (s : ViewState)
    (sorted : list ProjectDto) :
  derivedList ps s = Normal sorted ->
  List.length sorted
  = List.length (filteredProjects ps (searchTerm s) (statusFilter s)).
Proof.
  intros E. unfold derivedList, sortedProjects in E.
  symmetry. apply Permutation_length. exact (JSFacts.sortC_perm _ _ _ E).
Qed.

Lemma derivedList_deps (ps : list ProjectDto) (s s' : ViewState) :
  searchTerm s = searchTerm s' -> statusFilter s = statusFilter s' ->
  sortBy s = sortBy s' ->
  derivedList ps s = derivedList ps s'.
Proof. intros E1 E2 E3. unfold derivedList. now rewrite E1, E2, E3. Qed.

Lemma derivedTotalPages_normal (ps : list ProjectDto) (s : ViewState) (pages : Z) :
  derivedTotalPages ps s = Normal pages <->
  exists sorted, derivedList ps s = Normal sorted /\ pages = totalPages sorted.
Proof.
  unfold derivedTotalPages, mapC.
  destruct (derivedList ps s) as [sorted | e]; cbn [bind]; split.
  - intros E. injection E as <-. now exists sorted.
  - intros (l & E & ->). now injection E as <-.
  - discriminate.
  - intros (l & E & _). discriminate.
Qed.

(** A step that completes, taken apart. *)
Lemma step_normal (c : Component) (e : Event) (c' : Component) :
  step c e = Normal c' ->
  exists sorted sorted',
    derivedList (projects c) (view c) = Normal sorted
    /\ derivedList (projects (handle c (totalPages sorted) e))
                   (view (handle c (totalPages sorted) e)) = Normal sorted'
    /\ c' = mkComponent (projects (handle c (totalPages sorted) e))
              (resetEffect (view c) (view (handle c (totalPages sorted) e)))
    /\ derivedList (projects c') (view c') = Normal sorted'.
Proof.
  unfold step.
  destruct (derivedList (projects c) (view c)) as [sorted | x]; cbn [bind];
    [ | discriminate].
  destruct (derivedList (projects (handle c (totalPages sorted) e))
                        (view (handle c (totalPages sorted) e)))
    as [sorted' | x] eqn:E'; cbn [bind]; [ | discriminate].
  intros E. injection E as <-. exists sorted, sorted'.
  repeat split; try assumption. cbn [projects view]. rewrite <- E'.
  destruct (resetEffect_deps (view c) (view (handle c (totalPages sorted) e)))
    as (D1 & D2 & _ & D4).
  now apply derivedList_deps.
Qed.

Lemma offered_normal (c : Component) (e : Event) :
  offered c e = true ->
  exists sorted, derivedList (projects c) (view c) = Normal sorted
                 /\ offeredIn sorted (view c) e = true.
Proof.
  unfold offered.
  destruct (derivedList (projects c) (view c)) as [sorted | x];
    [ | discriminate].
  intros Hoff. now exists sorted.
Qed.

(** The page count after a step that leaves the dependencies and the
    record list alone is the page count before. *)
Lemma same_matches_same_pages (ps : list ProjectDto) (s s' : ViewState)
    (sorted sorted' : list ProjectDto) :
  searchTerm s = searchTerm s' -> statusFilter s = statusFilter s' ->
  derivedList ps s = Normal sorted -> derivedList ps s' = Normal sorted' ->
  totalPages sorted' = totalPages sorted.
Proof.
  intros E1 E2 Hs Hs'. apply totalPages_length.
  rewrite (derivedList_length ps s sorted Hs),
          (derivedList_length ps s' sorted' Hs').
  now rewrite E1, E2.
Qed.

Lemma step_settled (c : Component) (e : Event) (c' : Component) :
  offered c e = true -> step c e = Normal c' ->
  (forall ps, e <> ProjectsProp ps) ->
  Spec.pageSettled c -> Spec.pageSettled c'.
Proof.
  intros Hoff Hstep Hev (pages & Hpages & Hrange).
  apply offered_normal in Hoff. destruct Hoff as (sorted & Hs & Hoff).
  apply derivedTotalPages_normal in Hpages.
  destruct Hpages as (sorted0 & Hs0 & ->).
  assert (sorted0 = sorted) by congruence. subst sorted0.
  destruct (step_normal c e c' Hstep) as (l & sorted' & Hl & Hh & -> & Hc').
  assert (l = sorted) by congruence. subst l.
  destruct (handle_page c sorted e Hoff Hrange Hev) as [Hps Hpage].
  exists (totalPages sorted'). split.
  - apply derivedTotalPages_normal. now exists sorted'.
  - cbn [view currentPage]. rewrite resetEffect_page.
    destruct (depsChanged (view c) (view (handle c (totalPages sorted) e)))
      eqn:E; [lia | ].
    apply depsChanged_false in E. destruct E as (E1 & E2 & _).
    rewrite Hps in Hh.
    now rewrite (same_matches_same_pages (projects c) (view c) _ sorted sorted'
                   E1 E2 Hs Hh).
Qed.

Lemma settled_in_range (c : Component) (sorted : list ProjectDto) :
  derivedList (projects c) (view c) = Normal sorted ->
  Spec.pageSettled c -> (1 <= totalPages sorted)%Z -> Spec.pageInRange c.
Proof.
  intros Hs (pages & Hpages & Hrange) HT.
  apply derivedTotalPages_normal in Hpages.
  destruct Hpages as (l & Hl & ->).
  assert (l = sorted) by congruence. subst l.
  exists (totalPages sorted). split.
  - apply derivedTotalPages_normal. now exists sorted.
  - lia.
Qed.

(** Sessions on a fixed record list. *)
Lemma run_settled (events : list Event) (c c' : Component) :
  (forall e, In e events -> forall ps, e <> ProjectsProp ps) ->
  Spec.pageSettled c -> run c events = Normal c' ->
  projects c' = projects c /\ Spec.pageSettled c'.
Proof.
  revert c. induction events as [ | e events IH]; intros c Hev Hset Hrun.
  - cbn in Hrun. injection Hrun as <-. now split.
  - cbn [run] in Hrun.
    assert (Hev' : forall e', In e' events -> forall ps, e' <> ProjectsProp ps)
      by (intros e' Hin; apply Hev; now right).
    destruct (offered c e) eqn:Hoff; [ | now apply IH].
    destruct (step c e) as [c1 | x] eqn:Hstep; cbn [bind] in Hrun;
      [ | discriminate].
    assert (He : forall ps, e <> ProjectsProp ps) by (apply Hev; now left).
    destruct (IH c1 Hev' (step_settled c e c1 Hoff Hstep He Hset) Hrun)
      as [Hps Hset'].
    split; [ | exact Hset'].
    rewrite Hps.
    destruct (step_normal c e c1 Hstep) as (sorted & sorted' & Hs & _ & -> & _).
    cbn [projects].
    apply offered_normal in Hoff. destruct Hoff as (l & Hl & Hoff).
    assert (l = sorted) by congruence. subst l.
    destruct Hset as (pages & Hpages & Hrange).
    apply derivedTotalPages_normal in Hpages.
    destruct Hpages as (l & Hl' & ->).
    assert (l = sorted) by congruence. subst l.
    now destruct (handle_page c sorted e Hoff Hrange He).
Qed.

(** When choosing a sort key completes: the next render sorts the same
    matching records by the new key. *)
Lemma step_SelectSort (c : Component) (k : string) (sorted : list ProjectDto) :
  derivedList (projects c) (view c) = Normal sorted ->
  (k = "progress" -> (2 <= List.length sorted)%nat ->
   step c (SelectSort k) = Throw (ReferenceError "calculateProgress"))
  /\ (k <> "progress" \/ (List.length sorted <= 1)%nat ->
      exists c', step c (SelectSort k) = Normal c').
Proof.
  intros Hs.
  set (F := filteredProjects (projects c) (searchTerm (view c))
              (statusFilter (view c))).
  assert (Hlen : List.length sorted = List.length F)
    by exact (derivedList_length _ _ _ Hs).
  assert (Hd : derivedList (projects c) (setSortBy (view c) k)
               = sortedProjects k F) by reflexivity.
  unfold step. rewrite Hs. cbn [bind handle projects view]. rewrite Hd.
  split.
  - intros -> Hl. rewrite Hlen in Hl.
    now rewrite (proj1 (ComparatorFacts.sorted_progress F) Hl).
  - intros Hret. rewrite Hlen in Hret.
    destruct (ComparatorFacts.sortedProjects_returns k F Hret) as (out & ->).
    cbn [bind]. eexists. reflexivity.
Qed.

(** With a sort key other than "progress" before and after, the step
    completes, whatever the event. *)
Lemma handle_sortBy (c : Component) (pages : Z) (e : Event) :
  sortBy (view (handle c pages e))
  = match e with SelectSort k => k | _ => sortBy (view c) end.
Proof. destruct e; reflexivity. Qed.

Lemma step_completes (c : Component) (e : Event) :
  sortBy (view c) <> "progress" -> e <> SelectSort "progress" ->
  exists c', step c e = Normal c' /\ sortBy (view c') <> "progress".
Proof.
  intros Hk He. unfold step.
  destruct (ComparatorFacts.sortedProjects_returns (sortBy (view c))
              (filteredProjects (projects c) (searchTerm (view c))
                 (statusFilter (view c))) (or_introl Hk)) as (sorted & Hs).
  change (derivedList (projects c) (view c) = Normal sorted) in Hs.
  rewrite Hs. cbn [bind].
  set (h := handle c (totalPages sorted) e).
  assert (Hk' : sortBy (view h) <> "progress").
  { subst h. rewrite handle_sortBy. destruct e; try exact Hk. congruence. }
  destruct (ComparatorFacts.sortedProjects_returns (sortBy (view h))
              (filteredProjects (projects h) (searchTerm (view h))
                 (statusFilter (view h))) (or_introl Hk')) as (sorted' & Hs').
  change (derivedList (projects h) (view h) = Normal sorted') in Hs'.
  rewrite Hs'. cbn [bind]. eexists. split; [reflexivity | ].
  cbn [view].
  now rewrite (proj2 (proj2 (proj2 (resetEffect_deps (view c) (view h))))).
Qed.

Lemma run_completes (events : list Event) (c : Component) :
  sortBy (view c) <> "progress" ->
  (forall e, In e events -> e <> SelectSort "progress") ->
  exists c', run c events = Normal c'.
Proof.
  revert c. induction events as [ | e events IH]; intros c Hk Hev.
  - now exists c.
  - cbn [run].
    assert (Hev' : forall e', In e' events -> e' <> SelectSort "progress")
      by (intros e' Hin; apply Hev; now right).
    destruct (offered c e); [ | now apply IH].
    destruct (step_completes c e Hk (Hev e (or_introl eq_refl)))
      as (c1 & -> & Hk1).
    cbn [bind]. now apply IH.
Qed.

Lemma mount_settled (ps : list ProjectDto) : Spec.pageSettled (mount ps).
Proof.
  unfold Spec.pageSettled, mount. cbn [projects view currentPage initialState].
  unfold derivedTotalPages, derivedList, sortedProjects. cbn [sortBy initialState].
  rewrite (JSFacts.sortC_total _ Spec.compareName) by reflexivity.
  eexists. split; [reflexivity | lia].
Qed.


End WithHost.



End PageFacts.

(* ================================================================== *)
(** ** Sorting *)
(* ================================================================== *)

Module SortFacts.
Import JS ProjectsDisplay.

Section Generic.
Context {A : Type} (dom : A -> Prop) (cmp : A -> A -> Q).
Hypothesis consistent : Spec.Consistent dom cmp.

Local Abbreviation before := (Spec.notAfter cmp).
Local Abbreviation tied := (Spec.tiedBy cmp).

Lemma comes_after_true (a b : A) :
  comes_after cmp a b = true <-> (0 < cmp a b)%Q.
Proof.
  unfold comes_after. rewrite negb_true_iff.
  destruct (Qle_bool (cmp a b) 0) eqn:E.
  - apply Qle_bool_iff in E. split; [discriminate | ].
    intros Hlt. exfalso. apply (Qlt_not_le _ _ Hlt E).
  - split; [intros _ | reflexivity].
    apply Qnot_le_lt. intros Hle. apply Qle_bool_iff in Hle. congruence.
Qed.

Lemma comes_after_false (a b : A) :
  comes_after cmp a b = false <-> (cmp a b <= 0)%Q.
Proof.
  unfold comes_after. rewrite negb_false_iff. apply Qle_bool_iff.
Qed.

Lemma insert_perm (x : A) (l : list A) : Permutation (x :: l) (insert cmp x l).
Proof.
  induction l as [ | y l IH]; simpl; [apply Permutation_refl | ].
  destruct (comes_after cmp x y); [ | apply Permutation_refl].
  apply perm_trans with (y :: x :: l); [apply perm_swap | ].
  now apply perm_skip.
Qed.

Lemma sort_perm (l : list A) : Permutation l (sort cmp l).
Proof.
  induction l as [ | x l IH]; simpl; [apply perm_nil | ].
  apply perm_trans with (x :: sort cmp l); [now apply perm_skip | ].
  apply insert_perm.
Qed.

Lemma sort_dom (l : list A) : Forall dom l -> Forall dom (sort cmp l).
Proof.
  intros Hl. apply Forall_forall. intros x Hx.
  rewrite Forall_forall in Hl. apply Hl.
  apply Permutation_in with (sort cmp l); [ | exact Hx].
  apply Permutation_sym, sort_perm.
Qed.

Lemma insert_sorted (x : A) (l : list A) :
  dom x -> Forall dom l ->
  StronglySorted before l -> StronglySorted before (insert cmp x l).
Proof.
  intros Hx Hl Hs. induction Hs as [ | y l Hs IH Hy]; simpl.
  - constructor; constructor.
  - inversion Hl as [ | ? ? Hdy Hdl]; subst.
    destruct (comes_after cmp x y) eqn:E.
    + apply comes_after_true in E.
      constructor; [now apply IH | ].
      apply Forall_forall. intros z Hz.
      apply (Permutation_in _ (Permutation_sym (insert_perm x l))) in Hz.
      destruct Hz as [<- | Hz].
      * unfold before. apply Qlt_le_weak.
        now apply (Spec.cmp_swap dom cmp consistent x y).
      * rewrite Forall_forall in Hy. now apply Hy.
    + apply comes_after_false in E.
      constructor; [now constructor | ].
      constructor; [exact E | ].
      apply Forall_forall. intros z Hz.
      rewrite Forall_forall in Hy, Hdl.
      apply (Spec.cmp_trans dom cmp consistent x y z); auto.
      now apply Hy.
Qed.

Lemma sort_sorted (l : list A) :
  Forall dom l -> StronglySorted before (sort cmp l).
Proof.
  induction l as [ | x l IH]; intros Hl; simpl; [constructor | ].
  inversion Hl; subst.
  apply insert_sorted; auto using sort_dom.
Qed.

Lemma tied_before (t a : A) :
  dom t -> dom a -> tied t a = true -> before t a /\ before a t.
Proof.
  intros Ht Ha E. unfold tied in E. apply Qeq_bool_iff in E.
  unfold before. split.
  - rewrite E. apply Qle_refl.
  - apply Qnot_lt_le. intros Hlt.
    apply (Spec.cmp_swap dom cmp consistent a t Ha Ht) in Hlt.
    rewrite E in Hlt. discriminate Hlt.
Qed.

Lemma insert_stable (t x : A) (l : list A) :
  dom t -> dom x -> Forall dom l ->
  filter (tied t) (insert cmp x l) = filter (tied t) (x :: l).
Proof.
  intros Ht Hx Hl. induction l as [ | y l IH]; [reflexivity | ].
  inversion Hl as [ | ? ? Hy Hl']; subst.
  cbn [insert]. destruct (comes_after cmp x y) eqn:E; [ | reflexivity].
  apply comes_after_true in E.
  cbn [filter] in *. rewrite (IH Hl').
  destruct (tied t x) eqn:Tx, (tied t y) eqn:Ty; try reflexivity.
  exfalso.
  apply (tied_before t x Ht Hx) in Tx. apply (tied_before t y Ht Hy) in Ty.
  apply (Qlt_not_le _ _ E).
  apply (Spec.cmp_trans dom cmp consistent x t y); tauto.
Qed.

Lemma sort_stable (t : A) (l : list A) :
  dom t -> Forall dom l ->
  filter (tied t) (sort cmp l) = filter (tied t) l.
Proof.
  intros Ht Hl. induction l as [ | x l IH]; [reflexivity | ].
  inversion Hl; subst. cbn [sort].
  rewrite insert_stable by auto using sort_dom.
  cbn [filter]. now rewrite IH.
Qed.

Lemma sort_stably (before' : A -> A -> Prop) (tied' : A -> A -> bool) :
  (forall a b, dom a -> dom b -> (cmp a b <= 0)%Q -> before' a b) ->
  (forall a b, dom a -> dom b -> tied' a b = Qeq_bool (cmp a b) 0) ->
  forall l, Forall dom l ->
  Spec.StablySorted dom before' tied' l (sort cmp l).
Proof.
  intros Hbefore Htied l Hl.
  assert (Hsl : Forall dom (sort cmp l)) by now apply sort_dom.
  split; [apply sort_perm | split].
  - generalize (sort_sorted l Hl). generalize Hsl.
    generalize (sort cmp l) as s.
    induction 2 as [ | a s Hs IH Ha]; constructor.
    + apply IH. now inversion Hsl0.
    + inversion Hsl0 as [ | ? ? Hda Hds]; subst.
      rewrite Forall_forall in *. intros b Hb. apply Hbefore; auto.
      now apply Ha.
  - intros x Hx.
    rewrite (filter_ext_in (tied' x) (tied x) (sort cmp l)).
    + rewrite (filter_ext_in (tied' x) (tied x) l).
      * now apply sort_stable.
      * intros y Hy. apply Htied; [exact Hx | ].
        rewrite Forall_forall in Hl. now apply Hl.
    + intros y Hy. apply Htied; [exact Hx | ].
      rewrite Forall_forall in Hsl. now apply Hsl.
Qed.

(** The result does not depend on the sorting algorithm: any list that is
    a stable sort of [l] under a consistent comparator is [sort cmp l]. *)
Lemma tied_refl (a : A) : dom a -> tied a a = true.
Proof.
  intros Ha. unfold Spec.tiedBy. apply Qeq_bool_iff.
  destruct (Spec.cmp_swap dom cmp consistent a a Ha Ha) as [H1 H2].
  destruct (Q_dec (cmp a a) 0) as [[Hlt | Hgt] | Heq]; [ | | exact Heq].
  - exfalso. apply (Qlt_irrefl 0). apply Qlt_trans with (cmp a a); auto.
  - exfalso. apply (Qlt_irrefl 0). apply Qlt_trans with (cmp a a); auto.
Qed.

Lemma before_both_tied (a b : A) :
  dom a -> dom b -> before a b -> before b a -> tied a b = true.
Proof.
  intros Ha Hb Hab Hba. unfold Spec.tiedBy, Spec.notAfter in *.
  apply Qeq_bool_iff. apply Qle_antisym; [exact Hab | ].
  apply Qnot_lt_le. intros Hlt.
  apply (Spec.cmp_swap dom cmp consistent b a Hb Ha) in Hlt.
  apply (Qlt_not_le _ _ Hlt Hba).
Qed.

Lemma filter_head_in (f : A -> bool) (a : A) (rest l : list A) :
  a :: rest = filter f l -> In a l.
Proof.
  intros E. assert (Hin : In a (filter f l)) by (rewrite <- E; now left).
  now apply filter_In in Hin.
Qed.

Lemma sorted_classes_unique (s1 s2 : list A) :
  Forall dom s1 -> Forall dom s2 ->
  StronglySorted before s1 -> StronglySorted before s2 ->
  (forall x, dom x -> filter (tied x) s1 = filter (tied x) s2) ->
  s1 = s2.
Proof.
  revert s2. induction s1 as [ | a r1 IH]; intros [ | b r2] D1 D2 S1 S2 Hcls.
  - reflexivity.
  - inversion D2 as [ | ? ? Db _]; subst.
    specialize (Hcls b Db). cbn [filter] in Hcls.
    rewrite (tied_refl b Db) in Hcls. discriminate.
  - inversion D1 as [ | ? ? Da _]; subst.
    specialize (Hcls a Da). cbn [filter] in Hcls.
    rewrite (tied_refl a Da) in Hcls. discriminate.
  - inversion D1 as [ | ? ? Da D1']; inversion D2 as [ | ? ? Db D2']; subst.
    inversion S1 as [ | ? ? S1' F1]; inversion S2 as [ | ? ? S2' F2]; subst.
    assert (Eab : a = b).
    { generalize (Hcls a Da), (Hcls b Db). cbn [filter].
      rewrite (tied_refl a Da), (tied_refl b Db).
      destruct (tied a b) eqn:Tab; [intros E _; now injection E | ].
      destruct (tied b a) eqn:Tba; [intros _ E; now injection E | ].
      intros Ea Eb. exfalso.
      apply filter_head_in in Ea.
      symmetry in Eb. apply filter_head_in in Eb.
      rewrite Forall_forall in F1, F2.
      rewrite (before_both_tied a b Da Db (F1 b Eb) (F2 a Ea)) in Tab.
      discriminate. }
    subst b. f_equal. apply IH; auto.
    intros x Hx. generalize (Hcls x Hx). cbn [filter].
    destruct (tied x a); [intros E; now injection E | auto].
Qed.

Lemma stable_sort_unique (l out : list A) :
  Forall dom l ->
  Spec.StablySorted dom before tied l out -> out = sort cmp l.
Proof.
  intros Hl (Hperm & Hsorted & Hstable).
  apply sorted_classes_unique.
  - apply Forall_forall. intros x Hx. rewrite Forall_forall in Hl.
    apply Hl. now apply (Permutation_in _ (Permutation_sym Hperm)).
  - now apply sort_dom.
  - exact Hsorted.
  - now apply sort_sorted.
  - intros x Hx. now rewrite Hstable, sort_stable.
Qed.

End Generic.

(** A comparator that is the difference of integer keys, or more
    generally an integer-valued comparator with the two laws. *)
Lemma consistent_of_Z {A} (dom : A -> Prop) (cmp : A -> A -> Q)
    (cmpZ : A -> A -> Z) :
  (forall a b, dom a -> dom b -> cmp a b = inject_Z (cmpZ a b)) ->
  (forall a b, dom a -> dom b -> 0 < cmpZ a b <-> cmpZ b a < 0) ->
  (forall a b c, dom a -> dom b -> dom c ->
     cmpZ a b <= 0 -> cmpZ b c <= 0 -> cmpZ a c <= 0) ->
  Spec.Consistent dom cmp.
Proof.
  intros Hcmp Hswap Htrans. split.
  - intros a b Ha Hb. rewrite !Hcmp by assumption.
    change 0%Q with (inject_Z 0). rewrite <- !Zlt_Qlt. now apply Hswap.
  - intros a b c Ha Hb Hc. rewrite !Hcmp by assumption.
    change 0%Q with (inject_Z 0). rewrite <- !Zle_Qle. now apply Htrans.
Qed.

Lemma Qeq_bool_inject (z : Z) : Qeq_bool (inject_Z z) 0 = (z =? 0).
Proof.
  destruct (Z.eqb_spec z 0) as [-> | NE]; [reflexivity | ].
  destruct (Qeq_bool (inject_Z z) 0) eqn:E; [ | reflexivity].
  apply Qeq_bool_iff in E. exfalso. apply NE.
  unfold Qeq in E. cbn [Qnum Qden inject_Z] in E. lia.
Qed.

Section WithHost.
Context `{Host}.

Lemma consistent_capacity : Spec.Consistent Spec.anyRecord Spec.compareCapacity.
Proof.
  unfold Spec.compareCapacity. split.
  - intros a b _ _. split; intros; lra.
  - intros a b c _ _ _. intros; lra.
Qed.

Lemma consistent_startDate :
  Spec.Consistent Spec.validStart Spec.compareStartDate.
Proof.
  apply (consistent_of_Z _ _ Spec.startDifference).
  - reflexivity.
  - intros a b [ta Ha] [tb Hb]. unfold Spec.startDifference. rewrite Ha, Hb. lia.
  - intros a b c [ta Ha] [tb Hb] [tc Hc]. unfold Spec.startDifference.
    rewrite Ha, Hb, Hc. lia.
Qed.

Hypothesis laws : Spec.HostLaws H.

Lemma consistent_name : Spec.Consistent Spec.anyRecord Spec.compareName.
Proof.
  apply (consistent_of_Z _ _
           (fun a b => localeCompare (Spec.nameKey a) (Spec.nameKey b))).
  - reflexivity.
  - intros. apply (Spec.localeCompare_swap H laws).
  - intros a b c _ _ _. apply (Spec.localeCompare_trans H laws).
Qed.

Lemma consistent_status : Spec.Consistent Spec.anyRecord Spec.compareStatus.
Proof.
  apply (consistent_of_Z _ _
           (fun a b => localeCompare (Spec.statusKey a) (Spec.statusKey b))).
  - reflexivity.
  - intros. apply (Spec.localeCompare_swap H laws).
  - intros a b c _ _ _. apply (Spec.localeCompare_trans H laws).
Qed.

(** C4: the sort.  By name and by status the sorted list is the filtered
    list stably sorted, ascending in the host's collation, a null field
    read as the empty string; by capacity, descending, a missing capacity
    read as 0; by start date, ascending in time, for start dates that
    parse; in each case the records tied on the key keep their input
    order.  By progress the sort does not return: with two or more
    records the comparator's call of [calculateProgress] throws, and only
    a list of at most one record comes back, unchanged. *)
Theorem sortedProjects_orders (filtered : list ProjectDto) :
  (exists out, sortedProjects "name" filtered = Normal out
               /\ Spec.StablySorted Spec.anyRecord Spec.byName Spec.sameName
                    filtered out)
  /\ (exists out, sortedProjects "status" filtered = Normal out
                  /\ Spec.StablySorted Spec.anyRecord Spec.byStatus
                       Spec.sameStatus filtered out)
  /\ (exists out, sortedProjects "capacity" filtered = Normal out
                  /\ Spec.StablySorted Spec.anyRecord Spec.byCapacityDesc
                       Spec.sameCapacity filtered out)
  /\ (Forall Spec.validStart filtered ->
      exists out, sortedProjects "startDate" filtered = Normal out
                  /\ Spec.StablySorted Spec.validStart Spec.byStartDate
                       Spec.sameStartDate filtered out)
  /\ ((2 <= List.length filtered)%nat ->
      sortedProjects "progress" filtered
      = Throw (ReferenceError "calculateProgress"))
  /\ ((List.length filtered <= 1)%nat ->
      sortedProjects "progress" filtered = Normal filtered).
Proof.
  assert (Hany : Forall Spec.anyRecord filtered)
    by (apply Forall_forall; intros; exact I).
  split; [ | split; [ | split; [ | split]]].
  - exists (sort Spec.compareName filtered). split; [apply ComparatorFacts.sorted_name | ].
    apply (sort_stably _ _ consistent_name); [ | | exact Hany].
    + intros a b _ _ Hle. unfold Spec.byName.
      rewrite Zle_Qle. exact Hle.
    + intros a b _ _. unfold Spec.sameName. symmetry. apply Qeq_bool_inject.
  - exists (sort Spec.compareStatus filtered). split; [apply ComparatorFacts.sorted_status | ].
    apply (sort_stably _ _ consistent_status); [ | | exact Hany].
    + intros a b _ _ Hle. unfold Spec.byStatus.
      rewrite Zle_Qle. exact Hle.
    + intros a b _ _. unfold Spec.sameStatus. symmetry. apply Qeq_bool_inject.
  - exists (sort Spec.compareCapacity filtered).
    split; [apply ComparatorFacts.sorted_capacity | ].
    apply (sort_stably _ _ consistent_capacity); [ | | exact Hany].
    + intros a b _ _. unfold Spec.compareCapacity, Spec.byCapacityDesc.
      intros; lra.
    + intros a b _ _. unfold Spec.compareCapacity, Spec.sameCapacity.
      destruct (Qeq_bool (Spec.capacityKey a) (Spec.capacityKey b)) eqn:E1,
               (Qeq_bool (Spec.capacityKey b - Spec.capacityKey a) 0) eqn:E2;
        try reflexivity; exfalso.
      * apply Qeq_bool_iff in E1. apply Qeq_bool_neq in E2. apply E2. lra.
      * apply Qeq_bool_neq in E1. apply Qeq_bool_iff in E2. apply E1. lra.
  - intros Hvalid. exists (sort Spec.compareStartDate filtered).
    split; [apply ComparatorFacts.sorted_startDate | ].
    apply (sort_stably _ _ consistent_startDate); [ | | exact Hvalid].
    + intros a b [ta Ha] [tb Hb].
      unfold Spec.compareStartDate, Spec.startDifference, Spec.byStartDate.
      rewrite Ha, Hb.
      intros Hle. exists ta, tb. repeat split.
      change 0%Q with (inject_Z 0) in Hle. rewrite <- Zle_Qle in Hle. lia.
    + intros a b [ta Ha] [tb Hb].
      unfold Spec.compareStartDate. rewrite Qeq_bool_inject.
      unfold Spec.startDifference, Spec.sameStartDate. rewrite Ha, Hb.
      destruct (Z.eqb_spec ta tb), (Z.eqb_spec (ta - tb) 0); lia || reflexivity.
  - apply ComparatorFacts.sorted_progress.
Qed.

End WithHost.

(** The sample host satisfies the laws: code-unit order is a total order. *)
Lemma string_compare_trans (a b c : string) :
  String.compare a b <> Gt -> String.compare b c <> Gt ->
  String.compare a c <> Gt.
Proof.
  revert b c. induction a as [ | x a IH]; intros [ | y b] [ | z c]; simpl;
    try congruence.
  unfold Ascii.compare.
  destruct (N.compare_spec (N_of_ascii x) (N_of_ascii y)),
           (N.compare_spec (N_of_ascii y) (N_of_ascii z)),
           (N.compare_spec (N_of_ascii x) (N_of_ascii z));
    try congruence; try lia.
  apply IH.
Qed.

Lemma sample_host_laws : Spec.HostLaws Samples.host.
Proof.
  split; cbn [localeCompare Samples.host].
  - intros a b. rewrite (String.compare_antisym a b).
    destruct (String.compare b a); simpl; lia.
  - intros a b c Hab Hbc.
    assert (H1 : String.compare a b <> Gt)
      by (destruct (String.compare a b); [discriminate | discriminate | lia]).
    assert (H2 : String.compare b c <> Gt)
      by (destruct (String.compare b c); [discriminate | discriminate | lia]).
    generalize (string_compare_trans a b c H1 H2).
    destruct (String.compare a c); [lia | lia | congruence].
Qed.

Lemma sortedProjects_orders_witness :
  (exists out, @sortedProjects Samples.host "startDate" Samples.starts
               = Normal out
               /\ map projectId out = ["x"; "y"; "j"; "m"]%string
               /\ Spec.StablySorted (@Spec.validStart Samples.host)
                    (@Spec.byStartDate Samples.host)
                    (@Spec.sameStartDate Samples.host) Samples.starts out)
  /\ (exists out, @sortedProjects Samples.host "capacity" Samples.plants
                  = Normal out
                  /\ map projectId out = ["b"; "a"; "d"; "c"]%string
                  /\ Spec.StablySorted Spec.anyRecord Spec.byCapacityDesc
                       Spec.sameCapacity Samples.plants out)
  /\ @sortedProjects Samples.host "progress" [Samples.alpha; Samples.beta]
     = Throw (ReferenceError "calculateProgress").
Proof.
  split; [ | split].
  - destruct (proj1 (proj2 (proj2 (proj2
               (@sortedProjects_orders Samples.host sample_host_laws
                  Samples.starts))))
               ltac:(repeat constructor; eexists; reflexivity))
      as (out & Eout & Hsorted).
    exists out. split; [exact Eout | split; [ | exact Hsorted]].
    assert (E : Normal out
                = Normal (sort (@Spec.compareStartDate Samples.host)
                               Samples.starts))
      by (rewrite <- Eout; apply ComparatorFacts.sorted_startDate).
    injection E as ->. vm_compute. reflexivity.
  - destruct (proj1 (proj2 (proj2
               (@sortedProjects_orders Samples.host sample_host_laws
                  Samples.plants))))
      as (out & Eout & Hsorted).
    exists out. split; [exact Eout | split; [ | exact Hsorted]].
    assert (E : Normal out
                = Normal (sort Spec.compareCapacity Samples.plants))
      by (rewrite <- Eout; apply (@ComparatorFacts.sorted_capacity Samples.host)).
    injection E as ->. vm_compute. reflexivity.
  - apply (proj1 (proj2 (proj2 (proj2 (proj2
             (@sortedProjects_orders Samples.host sample_host_laws
                [Samples.alpha; Samples.beta])))))).
    cbn. lia.
Defined.

End SortFacts.

(* ================================================================== *)
(** ** Further facts: filtering and the status options *)
(* ================================================================== *)

Module FilterMore.
Import JS ProjectsDisplay ProjectsDisplayView.
Local Open Scope string_scope.

Lemma filter_and {A} (f g : A -> bool) (l : list A) :
  filter (fun x => f x && g x) l = filter g (filter f l).
Proof.
  induction l as [ | x l IH]; [reflexivity | ]. cbn [filter].
  destruct (f x); cbn [andb filter]; [ | exact IH].
  destruct (g x); now rewrite IH.
Qed.

Lemma filter_within {A} (f g : A -> bool) (l : list A) :
  (forall x, g x = true -> f x = true) ->
  filter g (filter f l) = filter g l.
Proof.
  intros Hgf. induction l as [ | x l IH]; [reflexivity | ]. cbn [filter].
  destruct (f x) eqn:Fx; cbn [filter].
  - now rewrite IH.
  - destruct (g x) eqn:Gx; [ | exact IH].
    apply Hgf in Gx. congruence.
Qed.

Lemma matchesSearch_empty (r : ProjectDto) : matchesSearch EmptyString r = true.
Proof.
  unfold matchesSearch. cbn [toLowerCase].
  now rewrite !FilterFacts.includes_empty.
Qed.

Lemma matchesStatus_all (r : ProjectDto) : matchesStatus "all" r = true.
Proof. reflexivity. Qed.

Lemma append_assoc (a b c : string) : (a ++ b) ++ c = a ++ b ++ c.
Proof. induction a as [ | x a IH]; simpl; [reflexivity | now rewrite IH]. Qed.

Lemma Substring_trans (a b c : string) :
  Spec.Substring a b -> Spec.Substring b c -> Spec.Substring a c.
Proof.
  intros (pre1 & post1 & ->) (pre2 & post2 & ->).
  exists (pre2 ++ pre1), (post1 ++ post2).
  now rewrite !append_assoc.
Qed.

Lemma matchesSearch_weaken (s s' : string) (r : ProjectDto) :
  Spec.Substring (toLowerCase s) (toLowerCase s') ->
  matchesSearch s' r = true -> matchesSearch s r = true.
Proof.
  intros Hsub. rewrite !FilterFacts.matchesSearch_spec.
  unfold Spec.matchesSearch.
  intros [H | [H | H]]; [left | right; left | right; right];
    exact (Substring_trans _ _ _ Hsub H).
Qed.

(** Applying the search and the status filter one after the other, in
    either order, gives what applying both at once gives. *)
Theorem filter_composes (projects : list ProjectDto) (term f : string) :
  filteredProjects (filteredProjects projects term "all") EmptyString f
  = filteredProjects projects term f
  /\ filteredProjects (filteredProjects projects EmptyString f) term "all"
     = filteredProjects projects term f.
Proof.
  unfold filteredProjects. split.
  - rewrite (filter_ext _ (matchesStatus f))
      by (intros r; now rewrite matchesSearch_empty).
    rewrite (filter_ext (fun p => matchesSearch term p && matchesStatus "all" p)
                        (matchesSearch term))
      by (intros r; now rewrite matchesStatus_all, andb_true_r).
    now rewrite <- filter_and.
  - rewrite (filter_ext (fun p => matchesSearch term p && matchesStatus "all" p)
                        (matchesSearch term))
      by (intros r; now rewrite matchesStatus_all, andb_true_r).
    rewrite (filter_ext (fun p => matchesSearch EmptyString p && matchesStatus f p)
                        (matchesStatus f))
      by (intros r; now rewrite matchesSearch_empty).
    rewrite <- filter_and. apply filter_ext. intros r. apply andb_comm.
Qed.

(** A longer search term never brings a record back: when the lowercased
    old term occurs in the lowercased new term, searching the whole list
    with the new term gives what searching the old result with it gives. *)
Theorem search_narrows (projects : list ProjectDto) (term term' f : string) :
  Spec.Substring (toLowerCase term) (toLowerCase term') ->
  filteredProjects (filteredProjects projects term f) term' f
  = filteredProjects projects term' f.
Proof.
  intros Hsub. unfold filteredProjects. apply filter_within.
  intros r Hr. apply andb_true_iff in Hr. destruct Hr as [Hs Hf].
  now rewrite (matchesSearch_weaken term term' r Hsub Hs), Hf.
Qed.

Lemma search_narrows_witness :
  filteredProjects
    (filteredProjects [Samples.alpha; Samples.beta] "a" "all") "AL" "all"
  = filteredProjects [Samples.alpha; Samples.beta] "AL" "all".
Proof.
  apply search_narrows. exists EmptyString, "l". reflexivity.
Defined.

(** The set of statuses. *)
Lemma existsb_eqb_In (x : string) (l : list string) :
  existsb (String.eqb x) l = true <-> In x l.
Proof.
  rewrite existsb_exists. split.
  - intros (y & Hy & E). apply String.eqb_eq in E. now subst.
  - intros H. exists x. split; [exact H | apply String.eqb_refl].
Qed.

Lemma fold_setAdd (values seen : list string) :
  NoDup seen ->
  NoDup (fold_left setAdd values seen)
  /\ forall x, In x (fold_left setAdd values seen) <-> In x seen \/ In x values.
Proof.
  revert seen. induction values as [ | v values IH]; intros seen Hnd; cbn [fold_left].
  - split; [exact Hnd | ]. intros x. cbn [In]. tauto.
  - unfold setAdd at 2 4. destruct (existsb (String.eqb v) seen) eqn:E.
    + destruct (IH seen Hnd) as [H1 H2]. split; [exact H1 | ].
      intros x. rewrite H2. cbn [In]. apply existsb_eqb_In in E.
      split; [tauto | ]. intros [H | [<- | H]]; auto.
    + assert (Hnot : ~ In v seen).
      { intros Hin. apply existsb_eqb_In in Hin. congruence. }
      assert (Hnd' : NoDup (seen ++ [v])).
      { apply NoDup_app; repeat split; auto.
        - constructor; [intros [] | constructor].
        - intros x Hx [<- | []]. contradiction. }
      destruct (IH (seen ++ [v])%list Hnd') as [H1 H2]. split; [exact H1 | ].
      intros x. rewrite H2, in_app_iff. cbn [In]. tauto.
Qed.

Lemma In_filterNotNull (s : string) (values : list (option string)) :
  In s (filterNotNull values) <-> In (Some s) values.
Proof.
  induction values as [ | [v | ] values IH]; cbn [filterNotNull In].
  - tauto.
  - rewrite IH. split; (intros [H | H]; [left; congruence | now right]).
  - rewrite IH. split; [now right | intros [H | H]; [discriminate | exact H]].
Qed.

(** The status select offers every status that occurs in the list exactly
    once, nothing else, and choosing any of its options (with no search
    term) leaves at least one record. *)
Theorem uniqueStatuses_options (projects : list ProjectDto) :
  NoDup (uniqueStatuses projects)
  /\ (forall s, In s (uniqueStatuses projects)
                <-> exists p, In p projects /\ status p = Some s)
  /\ (forall s, In s (uniqueStatuses projects) ->
                filteredProjects projects EmptyString s <> []).
Proof.
  unfold uniqueStatuses, arrayFromSet.
  destruct (fold_setAdd (filterNotNull (map status projects)) [] (NoDup_nil _))
    as [Hnd Hin].
  assert (Hiff : forall s,
            In s (fold_left setAdd (filterNotNull (map status projects)) [])
            <-> exists p, In p projects /\ status p = Some s).
  { intros s. rewrite Hin, In_filterNotNull, in_map_iff. cbn [In].
    split.
    - intros [[] | (p & E & Hp)]. now exists p.
    - intros (p & Hp & E). right. now exists p. }
  split; [exact Hnd | split; [exact Hiff | ]].
  intros s Hs. apply Hiff in Hs. destruct Hs as (p & Hp & E).
  assert (Hkept : In p (filteredProjects projects EmptyString s)).
  { unfold filteredProjects. apply filter_In. split; [exact Hp | ].
    rewrite matchesSearch_empty. unfold matchesStatus. rewrite E.
    now rewrite String.eqb_refl, orb_true_r. }
  intros Hnil. rewrite Hnil in Hkept. exact Hkept.
Qed.

Lemma uniqueStatuses_options_witness :
  filteredProjects [Samples.alpha; Samples.beta; Samples.overrun]
    EmptyString "Planning" <> []
  /\ uniqueStatuses [Samples.alpha; Samples.beta; Samples.overrun]
     = ["Planning"; "InProgress"].
Proof.
  split.
  - apply (proj2 (proj2 (uniqueStatuses_options
                            [Samples.alpha; Samples.beta; Samples.overrun]))).
    vm_compute. now left.
  - reflexivity.
Defined.

End FilterMore.

(* ================================================================== *)
(** ** Further facts: sorting, pages and the range line *)
(* ================================================================== *)

Module PipelineMore.
Import JS ProjectsDisplay ProjectsDisplayView.
Local Open Scope string_scope.

(** Sorting a list that is already in order returns it. *)
Lemma sort_sorted_id {A} (cmp : A -> A -> Q) (l : list A) :
  StronglySorted (Spec.notAfter cmp) l -> sort cmp l = l.
Proof.
  induction 1 as [ | a l Hs IH Ha]; [reflexivity | ].
  cbn [sort]. rewrite IH. destruct l as [ | y l]; [reflexivity | ].
  cbn [insert]. inversion Ha as [ | ? ? Hay _]; subst.
  apply (SortFacts.comes_after_false cmp a y) in Hay. now rewrite Hay.
Qed.

Lemma all_tied_sorted {A} (cmp : A -> A -> Q) (l : list A) :
  (forall a b, cmp a b = 0%Q) -> StronglySorted (Spec.notAfter cmp) l.
Proof.
  intros Hz. induction l as [ | x l IH]; constructor; [exact IH | ].
  apply Forall_forall. intros y _. unfold Spec.notAfter. rewrite Hz.
  apply Qle_refl.
Qed.

Section WithHost.
Context `{Host}.

(** Sorting only rearranges.  Whenever the sort returns, by whatever
    key and with whatever collation, its result holds the filtered
    records, none lost or repeated, so the number of records and of pages
    is that of the filtered list; and for every key other than "progress"
    the sort does return. *)
Theorem sortedProjects_rearranges (k : string) (filtered : list ProjectDto) :
  (forall out, sortedProjects k filtered = Normal out ->
     Permutation filtered out
     /\ List.length out = List.length filtered
     /\ totalPages out = totalPages filtered)
  /\ (k <> "progress" -> exists out, sortedProjects k filtered = Normal out).
Proof.
  split.
  - intros out Hout.
    assert (Hp : Permutation filtered out)
      by exact (JSFacts.sortC_perm _ _ _ Hout).
    assert (Hl : List.length out = List.length filtered)
      by (symmetry; now apply Permutation_length).
    split; [exact Hp | split; [exact Hl | ]].
    now rewrite !PaginationFacts.totalPages_div, Hl.
  - intros Hk. apply ComparatorFacts.sortedProjects_returns. now left.
Qed.

(** A sort key other than the five of the select leaves the list in
    its input order. *)
Theorem sortedProjects_unknown_key (k : string) (filtered : list ProjectDto) :
  ~ In k sortOptions -> sortedProjects k filtered = Normal filtered.
Proof.
  intros Hk. unfold sortedProjects.
  rewrite (JSFacts.sortC_total _ Spec.compareNothing)
    by (intros a b; now apply ComparatorFacts.compare_unknown).
  f_equal. apply sort_sorted_id, all_tied_sorted. reflexivity.
Qed.

End WithHost.

Lemma sortedProjects_rearranges_witness :
  exists out, @sortedProjects Samples.host "capacity" Samples.plants = Normal out
              /\ Permutation Samples.plants out
              /\ totalPages out = totalPages Samples.plants.
Proof.
  destruct (proj2 (@sortedProjects_rearranges Samples.host "capacity"
                     Samples.plants) ltac:(discriminate)) as (out & Hout).
  exists out. split; [exact Hout | ].
  destruct (proj1 (@sortedProjects_rearranges Samples.host "capacity"
                     Samples.plants) out Hout) as (Hp & _ & Ht).
  now split.
Defined.

Lemma sortedProjects_unknown_key_witness :
  @sortedProjects Samples.host "budget" Samples.plants = Normal Samples.plants.
Proof.
  apply (@sortedProjects_unknown_key Samples.host).
  cbn. intuition discriminate.
Defined.

Section WithLaws.
Context `{Host}.
Hypothesis laws : Spec.HostLaws H.

Lemma any_record (l : list ProjectDto) : Forall Spec.anyRecord l.
Proof. apply Forall_forall. intros; exact I. Qed.

(** Sorting twice with a comparator that returns numbers consistently. *)
Lemma sorted_twice (k : string) (f : ProjectDto -> ProjectDto -> Q)
    (l : list ProjectDto) :
  (forall a b, compareProjects k a b = Normal (f a b)) ->
  StronglySorted (Spec.notAfter f) (sort f l) ->
  sortedProjects k l = Normal (sort f l)
  /\ sortedProjects k (sort f l) = Normal (sort f l).
Proof.
  intros Hf Hs. unfold sortedProjects.
  rewrite !(JSFacts.sortC_total _ f) by exact Hf. split; [reflexivity | ].
  f_equal. now apply sort_sorted_id.
Qed.

Lemma sortedProjects_twice (k : string) (filtered : list ProjectDto) :
  (k = "startDate" -> Forall Spec.validStart filtered) ->
  k <> "progress" ->
  exists out, sortedProjects k filtered = Normal out
              /\ sortedProjects k out = Normal out.
Proof.
  intros Hvalid Hk.
  destruct (ComparatorFacts.key_cases k) as [-> | [-> | [-> | [-> | [-> | Hu]]]]].
  - exists (sort Spec.compareName filtered).
    apply sorted_twice; [apply ComparatorFacts.compare_name | ].
    apply (SortFacts.sort_sorted Spec.anyRecord _ (SortFacts.consistent_name laws)).
    apply any_record.
  - exists (sort Spec.compareStatus filtered).
    apply sorted_twice; [apply ComparatorFacts.compare_status | ].
    apply (SortFacts.sort_sorted Spec.anyRecord _ (SortFacts.consistent_status laws)).
    apply any_record.
  - exists (sort Spec.compareCapacity filtered).
    apply sorted_twice; [apply ComparatorFacts.compare_capacity | ].
    apply (SortFacts.sort_sorted Spec.anyRecord _ SortFacts.consistent_capacity).
    apply any_record.
  - exists (sort Spec.compareStartDate filtered).
    apply sorted_twice; [apply ComparatorFacts.compare_startDate | ].
    apply (SortFacts.sort_sorted Spec.validStart _ SortFacts.consistent_startDate).
    now apply Hvalid.
  - congruence.
  - exists (sort Spec.compareNothing filtered).
    apply sorted_twice;
      [intros a b; now apply ComparatorFacts.compare_unknown | ].
    now apply all_tied_sorted.
Qed.

(** Sorting is idempotent.  For a consistent collation and, with the
    start-date key, start dates that parse: a list the sort returned is
    returned unchanged when sorted again by the same key; and for every
    key other than "progress" the sort does return. *)
Theorem sortedProjects_idempotent (k : string) (filtered : list ProjectDto) :
  (k = "startDate" -> Forall Spec.validStart filtered) ->
  (forall out, sortedProjects k filtered = Normal out ->
               sortedProjects k out = Normal out)
  /\ (k <> "progress" ->
      exists out, sortedProjects k filtered = Normal out
                  /\ sortedProjects k out = Normal out).
Proof.
  intros Hvalid. split.
  - intros out Hout.
    destruct (String.eqb_spec k "progress") as [-> | Hk].
    + destruct (Nat.le_gt_cases 2 (List.length filtered)) as [Hl | Hl].
      * rewrite (proj1 (ComparatorFacts.sorted_progress filtered) Hl) in Hout.
        discriminate Hout.
      * assert (Hl' : (List.length filtered <= 1)%nat) by lia.
        rewrite (proj2 (ComparatorFacts.sorted_progress filtered) Hl') in Hout.
        injection Hout as <-.
        now apply ComparatorFacts.sorted_progress.
    + destruct (sortedProjects_twice k filtered Hvalid Hk) as (out' & E1 & E2).
      assert (out' = out) by congruence. now subst out'.
  - intros Hk. now apply sortedProjects_twice.
Qed.

End WithLaws.

Lemma sortedProjects_idempotent_witness :
  (exists out, @sortedProjects Samples.host "capacity" Samples.plants = Normal out
               /\ @sortedProjects Samples.host "capacity" out = Normal out)
  /\ (exists out, @sortedProjects Samples.host "startDate" Samples.starts
                  = Normal out
                  /\ @sortedProjects Samples.host "startDate" out = Normal out).
Proof.
  split.
  - apply (proj2 (@sortedProjects_idempotent Samples.host
                    SortFacts.sample_host_laws "capacity" Samples.plants
                    ltac:(discriminate))).
    discriminate.
  - apply (proj2 (@sortedProjects_idempotent Samples.host
                    SortFacts.sample_host_laws "startDate" Samples.starts
                    ltac:(intros _; repeat constructor; eexists; reflexivity))).
    discriminate.
Defined.

(** Slices and pages only hold elements of the list. *)
Lemma In_slice {A} (l : list A) (start stop : Z) (x : A) :
  In x (slice l start stop) -> In x l.
Proof.
  unfold slice. intros Hx.
  set (k := Z.to_nat (rel_index (Z.of_nat (List.length l)) start)) in *.
  rewrite <- (firstn_skipn k l). apply in_or_app. right.
  set (rest := skipn k l) in *.
  rewrite <- (firstn_skipn
                (Z.to_nat (rel_index (Z.of_nat (List.length l)) stop
                           - rel_index (Z.of_nat (List.length l)) start)) rest).
  apply in_or_app. now left.
Qed.

Section Pages.
Context `{Host}.

Lemma In_derivedList (ps : list ProjectDto) (s : ViewState)
    (sorted : list ProjectDto) (r : ProjectDto) :
  derivedList ps s = Normal sorted ->
  In r sorted <-> In r ps /\ Spec.matches (searchTerm s) (statusFilter s) r.
Proof.
  intros Hs. unfold derivedList, sortedProjects in Hs.
  assert (Hp := JSFacts.sortC_perm _ _ _ Hs).
  split.
  - intros Hr. apply (Permutation_in _ (Permutation_sym Hp)) in Hr.
    unfold filteredProjects in Hr. apply filter_In in Hr.
    now rewrite FilterFacts.matches_spec in Hr.
  - intros [Hr Hm]. apply (Permutation_in _ Hp).
    unfold filteredProjects. apply filter_In.
    now rewrite FilterFacts.matches_spec.
Qed.

(** What the pages show.  Whenever the render's sort returns (it
    does for every sort key other than "progress"): the page shown is the
    current page's slice of the sorted list; every record on it is a
    record of the list that matches the search and the status filter,
    whatever the page number; and every matching record is on one of the
    pages 1..totalPages. *)
Theorem pages_show_matching (ps : list ProjectDto) (s : ViewState) :
  (sortBy s <> "progress" -> exists sorted, derivedList ps s = Normal sorted)
  /\ (forall sorted, derivedList ps s = Normal sorted ->
        derivedPage ps s = Normal (paginatedProjects sorted (currentPage s))
        /\ derivedTotalPages ps s = Normal (totalPages sorted)
        /\ (forall r, In r (paginatedProjects sorted (currentPage s)) ->
              In r ps /\ Spec.matches (searchTerm s) (statusFilter s) r)
        /\ (forall r, In r ps ->
              Spec.matches (searchTerm s) (statusFilter s) r ->
              exists p, In p (pageButtons (totalPages sorted))
                        /\ In r (paginatedProjects sorted p))).
Proof.
  split.
  - intros Hk. unfold derivedList. apply ComparatorFacts.sortedProjects_returns. now left.
  - intros sorted Hs. split; [ | split; [ | split]].
    + unfold derivedPage, mapC. now rewrite Hs.
    + unfold derivedTotalPages, mapC. now rewrite Hs.
    + intros r Hr. apply (In_derivedList ps s sorted r Hs).
      unfold paginatedProjects in Hr. now apply In_slice in Hr.
    + intros r Hr Hm.
      assert (Hin : In r sorted) by now apply (In_derivedList ps s sorted r Hs).
      rewrite <- (PaginationFacts.pages_concat sorted) in Hin.
      apply in_concat in Hin. destruct Hin as (page & Hpage & Hr').
      apply in_map_iff in Hpage. destruct Hpage as (p & <- & Hp).
      exists p. split; [exact Hp | exact Hr'].
Qed.

End Pages.

Lemma pages_show_matching_witness :
  exists sorted,
    @derivedList Samples.host Samples.ten initialState = Normal sorted
    /\ exists p, In p (pageButtons (totalPages sorted))
                 /\ In Samples.beta (paginatedProjects sorted p).
Proof.
  destruct (proj1 (@pages_show_matching Samples.host Samples.ten initialState)
              ltac:(discriminate)) as (sorted & Hs).
  exists sorted. split; [exact Hs | ].
  apply (proj2 (proj2 (proj2
           (proj2 (@pages_show_matching Samples.host Samples.ten initialState)
              sorted Hs)))).
  - unfold Samples.ten. apply in_or_app. right. now left.
  - apply FilterFacts.matches_spec. reflexivity.
Defined.

(** The range line under the grid: on a page within 1..totalPages,
    "Showing X to Y" counts exactly the records of the page, and both
    numbers lie within 1..N. *)
Theorem showing_range_counts (sorted : list ProjectDto) (page : Z) :
  (1 <= page <= totalPages sorted)%Z ->
  (showingTo sorted page - showingFrom page + 1
   = Z.of_nat (List.length (paginatedProjects sorted page)))%Z
  /\ (1 <= showingFrom page <= showingTo sorted page)%Z
  /\ (showingTo sorted page <= Z.of_nat (List.length sorted))%Z.
Proof.
  intros [Hlo Hhi]. rewrite PaginationFacts.totalPages_div in Hhi.
  rewrite PaginationFacts.paginatedProjects_window by exact Hlo.
  rewrite length_firstn, length_skipn.
  unfold showingTo, showingFrom, Math_minZ, itemsPerPage.
  assert (Hn : (9 * (page - 1) < Z.of_nat (List.length sorted))%Z).
  { revert Hhi. Z.to_euclidean_division_equations. lia. }
  lia.
Qed.

Lemma showing_range_counts_witness :
  (showingTo Samples.ten 2 - showingFrom 2 + 1
   = Z.of_nat (List.length (paginatedProjects Samples.ten 2)))%Z.
Proof.
  apply (proj1 (showing_range_counts Samples.ten 2
                  ltac:(vm_compute; split; discriminate))).
Defined.

End PipelineMore.

(* ================================================================== *)
(** ** Further facts: the page controls and the clear-all button *)
(* ================================================================== *)

Module PageMore.
Import JS ProjectsDisplay.
Local Open Scope string_scope.

Lemma view_eq (s s' : ViewState) :
  searchTerm s = searchTerm s' -> statusFilter s = statusFilter s' ->
  sortBy s = sortBy s' -> viewMode s = viewMode s' ->
  currentPage s = currentPage s' -> s = s'.
Proof. destruct s, s'; cbn; intros; subst; reflexivity. Qed.

Lemma component_eq (c c' : Component) :
  projects c = projects c' -> view c = view c' -> c = c'.
Proof. destruct c, c'; cbn; intros; subst; reflexivity. Qed.

Lemma filteredProjects_all (ps : list ProjectDto) :
  filteredProjects ps EmptyString "all" = ps.
Proof.
  unfold filteredProjects.
  induction ps as [ | r ps IH]; [reflexivity | ]. cbn [filter].
  now rewrite FilterMore.matchesSearch_empty, FilterMore.matchesStatus_all, IH.
Qed.

Section WithHost.
Context `{Host}.

Lemma derivedList_setCurrentPage (ps : list ProjectDto) (s : ViewState) (q : Z) :
  derivedList ps (setCurrentPage s q) = derivedList ps s.
Proof. reflexivity. Qed.

Lemma resetEffect_setCurrentPage (s : ViewState) (q : Z) :
  resetEffect s (setCurrentPage s q) = setCurrentPage s q.
Proof.
  unfold resetEffect.
  replace (depsChanged s (setCurrentPage s q)) with false; [reflexivity | ].
  symmetry. apply PageFacts.depsChanged_false. repeat split.
Qed.

Lemma step_Next (c : Component) (sorted : list ProjectDto) :
  derivedList (projects c) (view c) = Normal sorted ->
  step c Next
  = Normal (mkComponent (projects c)
              (setCurrentPage (view c)
                 (Math_minZ (currentPage (view c) + 1) (totalPages sorted)))).
Proof.
  intros Hs. unfold step. rewrite Hs. cbn [bind handle projects view].
  rewrite derivedList_setCurrentPage, Hs. cbn [bind].
  now rewrite resetEffect_setCurrentPage.
Qed.

Lemma step_Previous (c : Component) (sorted : list ProjectDto) :
  derivedList (projects c) (view c) = Normal sorted ->
  step c Previous
  = Normal (mkComponent (projects c)
              (setCurrentPage (view c) (Math_maxZ (currentPage (view c) - 1) 1))).
Proof.
  intros Hs. unfold step. rewrite Hs. cbn [bind handle projects view].
  rewrite derivedList_setCurrentPage, Hs. cbn [bind].
  now rewrite resetEffect_setCurrentPage.
Qed.

Lemma offered_page (c : Component) (sorted : list ProjectDto) (q : Z) (e : Event) :
  derivedList (projects c) (view c) = Normal sorted ->
  offered (mkComponent (projects c) (setCurrentPage (view c) q)) e
  = offeredIn sorted (setCurrentPage (view c) q) e.
Proof.
  intros Hs. unfold offered. cbn [projects view].
  now rewrite derivedList_setCurrentPage, Hs.
Qed.

(** Next and Previous undo each other.  From a page within range,
    where Next is enabled, Next completes, Previous is enabled
    afterwards, and Previous then leads back to the same state; likewise
    Previous then Next. *)
Theorem next_previous_round_trip (c : Component) :
  Spec.pageSettled c ->
  (offered c Next = true ->
   exists c1, step c Next = Normal c1
              /\ offered c1 Previous = true
              /\ step c1 Previous = Normal c)
  /\ (offered c Previous = true ->
      exists c1, step c Previous = Normal c1
                 /\ offered c1 Next = true
                 /\ step c1 Next = Normal c).
Proof.
  intros (pages & Hpages & Hlo & Hhi).
  apply PageFacts.derivedTotalPages_normal in Hpages.
  destruct Hpages as (sorted & Hs & ->).
  set (T := totalPages sorted) in *.
  split; intros Hoff.
  - unfold offered in Hoff. rewrite Hs in Hoff. cbn [offeredIn] in Hoff.
    apply andb_true_iff in Hoff. destruct Hoff as [Hbar Hne].
    assert (HT : (2 <= T)%Z) by now apply PageFacts.bar_shown_two_pages.
    apply negb_true_iff, Z.eqb_neq in Hne. fold T in Hne.
    eexists. split; [apply (step_Next c sorted Hs) | ].
    fold T. unfold Math_minZ.
    replace (Z.min (currentPage (view c) + 1) T)
      with (currentPage (view c) + 1)%Z by lia.
    split.
    + rewrite (offered_page c sorted _ Previous Hs). cbn [offeredIn].
      apply andb_true_iff. split; [exact Hbar | ].
      apply negb_true_iff, Z.eqb_neq. cbn. lia.
    + rewrite (step_Previous _ sorted)
        by (cbn [projects view]; now rewrite derivedList_setCurrentPage).
      f_equal. apply component_eq; [reflexivity | ].
      apply view_eq; try reflexivity.
      cbn. unfold Math_maxZ. lia.
  - unfold offered in Hoff. rewrite Hs in Hoff. cbn [offeredIn] in Hoff.
    apply andb_true_iff in Hoff. destruct Hoff as [Hbar Hne].
    assert (HT : (2 <= T)%Z) by now apply PageFacts.bar_shown_two_pages.
    apply negb_true_iff, Z.eqb_neq in Hne.
    eexists. split; [apply (step_Previous c sorted Hs) | ].
    unfold Math_maxZ.
    replace (Z.max (currentPage (view c) - 1) 1)
      with (currentPage (view c) - 1)%Z by lia.
    split.
    + rewrite (offered_page c sorted _ Next Hs). cbn [offeredIn].
      apply andb_true_iff. split; [exact Hbar | ].
      apply negb_true_iff, Z.eqb_neq. fold T.
      change (currentPage (view c) - 1 <> T)%Z. lia.
    + rewrite (step_Next _ sorted)
        by (cbn [projects view]; now rewrite derivedList_setCurrentPage).
      f_equal. apply component_eq; [reflexivity | ].
      apply view_eq; try reflexivity.
      fold T.
      change (Z.min (currentPage (view c) - 1 + 1) T = currentPage (view c)).
      lia.
Qed.

(** The clear-all button of the empty state.  It empties the search
    term and sets the status filter to "all".  With a sort key other
    than "progress", or with at most one record in the list, the next
    render completes: the effect sets the page to 1, the sort key and
    the view mode stay, and the list shown holds every record of the
    list.  With the sort key "progress" and two or more records the next
    render throws the comparator's ReferenceError. *)
Theorem clear_all_filters_shows_all (c : Component) :
  offered c ClearAllFilters = true ->
  (sortBy (view c) <> "progress" \/ (List.length (projects c) <= 1)%nat ->
   exists c' shown,
     step c ClearAllFilters = Normal c'
     /\ projects c' = projects c
     /\ searchTerm (view c') = EmptyString
     /\ statusFilter (view c') = "all"
     /\ currentPage (view c') = 1%Z
     /\ sortBy (view c') = sortBy (view c)
     /\ viewMode (view c') = viewMode (view c)
     /\ derivedList (projects c') (view c') = Normal shown
     /\ Permutation (projects c) shown)
  /\ (sortBy (view c) = "progress" -> (2 <= List.length (projects c))%nat ->
      step c ClearAllFilters = Throw (ReferenceError "calculateProgress")).
Proof.
  intros Hoff.
  apply PageFacts.offered_normal in Hoff.
  destruct Hoff as (sorted & Hs & Hoff). cbn [offeredIn] in Hoff.
  apply andb_true_iff in Hoff. destruct Hoff as [_ Hor].
  set (c1 := handle c (totalPages sorted) ClearAllFilters).
  assert (Hl : derivedList (projects c1) (view c1)
               = sortedProjects (sortBy (view c)) (projects c)).
  { unfold derivedList. subst c1.
    cbn [handle view projects setStatusFilter setSearchTerm searchTerm
         statusFilter sortBy].
    now rewrite filteredProjects_all. }
  assert (Hch : depsChanged (view c) (view c1) = true).
  { destruct (depsChanged (view c) (view c1)) eqn:E; [reflexivity | ].
    apply PageFacts.depsChanged_false in E. subst c1. cbn in E.
    destruct E as (E1 & E2 & _). rewrite E1, E2 in Hor. discriminate Hor. }
  split.
  - intros Hret.
    destruct (ComparatorFacts.sortedProjects_returns (sortBy (view c)) (projects c)
                Hret) as (shown & Hshown).
    exists (mkComponent (projects c1) (resetEffect (view c) (view c1))), shown.
    split.
    { unfold step. rewrite Hs. cbn [bind]. fold c1.
      rewrite Hl, Hshown. reflexivity. }
    cbn [projects view].
    destruct (PageFacts.resetEffect_deps (view c) (view c1))
      as (D1 & D2 & D3 & D4).
    rewrite D1, D2, D3, D4, PageFacts.resetEffect_page, Hch.
    repeat (split; [reflexivity | ]).
    split.
    + rewrite <- Hshown, <- Hl. apply PageFacts.derivedList_deps.
      * exact D1.
      * exact D2.
      * exact D4.
    + exact (JSFacts.sortC_perm _ _ _ Hshown).
  - intros Hk Hlen.
    unfold step. rewrite Hs. cbn [bind]. fold c1. rewrite Hl, Hk.
    now rewrite (proj1 (ComparatorFacts.sorted_progress (projects c)) Hlen).
Qed.

End WithHost.

Lemma next_previous_round_trip_witness :
  (exists c1, @step Samples.host MoreSamples.onPageOne Next = Normal c1
              /\ @step Samples.host c1 Previous = Normal MoreSamples.onPageOne)
  /\ (exists c1, @step Samples.host Samples.onPageTwo Previous = Normal c1
                 /\ @step Samples.host c1 Next = Normal Samples.onPageTwo).
Proof.
  split.
  - destruct (proj1 (@next_previous_round_trip Samples.host
                       MoreSamples.onPageOne
                       ltac:(exists 2%Z; split; [vm_compute; reflexivity | cbn; lia]))
                ltac:(vm_compute; reflexivity)) as (c1 & E1 & _ & E2).
    now exists c1.
  - destruct (proj2 (@next_previous_round_trip Samples.host
                       Samples.onPageTwo
                       ltac:(exists 2%Z; split; [vm_compute; reflexivity | cbn; lia]))
                ltac:(vm_compute; reflexivity)) as (c1 & E1 & _ & E2).
    now exists c1.
Defined.

Lemma clear_all_filters_shows_all_witness :
  (exists c' shown,
     @step Samples.host MoreSamples.nothingFound ClearAllFilters = Normal c'
     /\ currentPage (view c') = 1%Z
     /\ @derivedList Samples.host (projects c') (view c') = Normal shown
     /\ Permutation [Samples.alpha] shown)
  /\ @step Samples.host Samples.nothingByProgress ClearAllFilters
     = Throw (ReferenceError "calculateProgress").
Proof.
  split.
  - destruct (proj1 (@clear_all_filters_shows_all Samples.host
                       MoreSamples.nothingFound
                       ltac:(vm_compute; reflexivity))
                ltac:(left; discriminate))
      as (c' & shown & E & _ & _ & _ & Hp & _ & _ & Hl & Hperm).
    exists c', shown. repeat split; assumption.
  - apply (proj2 (@clear_all_filters_shows_all Samples.host
                    Samples.nothingByProgress
                    ltac:(vm_compute; reflexivity))).
    + reflexivity.
    + cbn. lia.
Defined.

End PageMore.

(* ================================================================== *)
(** ** Further facts: dates, priority colours, progress and messages *)
(* ================================================================== *)

Module CardMore.
Import JS ProjectsDisplay ProjectsDisplayView.
Local Open Scope string_scope.

Lemma round_full (t : Z) :
  t <> 0%Z -> Math_round (inject_Z t / inject_Z t * 100)%Q = 100%Z.
Proof.
  intros Ht. rewrite <- (JSFacts.Math_round_inject 100) at 2.
  unfold Math_round. apply Qfloor_comp.
  assert (Hq : ~ (inject_Z t == 0)%Q).
  { intros Hz. apply Ht. unfold Qeq in Hz. cbn in Hz. lia. }
  setoid_replace (inject_Z t / inject_Z t)%Q with 1%Q
    by (unfold Qdiv; apply Qmult_inv_r; exact Hq).
  reflexivity.
Qed.

Section WithHost.
Context `{Host}.

Lemma formatDate_valid (fmt : string -> string) (now t : Z) (s : string) :
  Date_getTime s = Some t ->
  formatDate fmt now s
  = let d := ((now - t) / msPerDay)%Z in
    if (d =? 0)%Z then "Today"
    else if (d =? 1)%Z then "Yesterday"
    else if (d <? 7)%Z then string_of_Z d ++ " days ago"
    else fmt s.
Proof.
  intros E. unfold formatDate. rewrite E.
  cbn [number_eqb number_ltb string_of_number].
  now rewrite MessageFacts.Math_floor_div.
Qed.

(** The relative date.  A date within the last 24 hours reads "Today",
    one day older "Yesterday", up to a week "N days ago", older dates and
    dates that do not parse are left to the host's formatter.  A date in
    the future also takes the "days ago" branch, with a negative count. *)
Theorem formatDate_labels (fmt : string -> string) (now : Z) (s : string) :
  (forall t, Date_getTime s = Some t ->
     let d := ((now - t) / msPerDay)%Z in
     ((now - msPerDay < t <= now)%Z -> formatDate fmt now s = "Today")
     /\ ((now - 2 * msPerDay < t <= now - msPerDay)%Z ->
         formatDate fmt now s = "Yesterday")
     /\ ((now - 7 * msPerDay < t <= now - 2 * msPerDay)%Z ->
         formatDate fmt now s = string_of_Z d ++ " days ago" /\ (2 <= d <= 6)%Z)
     /\ ((t <= now - 7 * msPerDay)%Z -> formatDate fmt now s = fmt s)
     /\ ((now < t)%Z ->
         formatDate fmt now s = string_of_Z d ++ " days ago" /\ (d < 0)%Z))
  /\ (Date_getTime s = None -> formatDate fmt now s = fmt s).
Proof.
  split.
  - intros t E d. rewrite (formatDate_valid fmt now t s E). fold d.
    assert (Hd : (msPerDay * d <= now - t < msPerDay * (d + 1))%Z).
    { unfold d, msPerDay. Z.to_euclidean_division_equations. lia. }
    unfold msPerDay in *. cbv zeta.
    split; [ | split; [ | split; [ | split]]]; intros Ht;
      destruct (Z.eqb_spec d 0); try lia; try reflexivity;
      destruct (Z.eqb_spec d 1); try lia; try reflexivity;
      destruct (Z.ltb_spec d 7); try lia; try reflexivity;
      (split; [reflexivity | lia]).
  - intros E. unfold formatDate. now rewrite E.
Qed.

(** All tasks done means "Completed", whatever the dates; and a project
    that is not complete and has an end date that parses is reported
    overdue exactly when that date lies before the clock reading. *)
Theorem completion_message_overdue (now : Z) (p : ProjectDto) :
  (taskCount p <> 0%Z -> completedTaskCount p = taskCount p ->
   getCompletionMessage now p = "✅ Completed")
  /\ (forall e t,
        calculateProgress p <> 100%Z ->
        estimatedEndDate p = Some e -> e <> EmptyString ->
        Date_getTime e = Some t ->
        (getCompletionMessage now p = "⚠️ Overdue" <-> (t < now)%Z)).
Proof.
  split.
  - intros Ht Hc. unfold getCompletionMessage.
    assert (E : calculateProgress p = 100%Z).
    { rewrite (ProgressFacts.calculateProgress_nonzero p Ht), Hc.
      now apply round_full. }
    now rewrite E.
  - intros e t Hp He Hne Ht. unfold getCompletionMessage, getDaysUntilEnd.
    apply Z.eqb_neq in Hp. rewrite Hp, He.
    destruct e as [ | c e]; [congruence | ]. rewrite Ht.
    rewrite MessageFacts.Math_floor_div.
    set (n := ((t - now) / msPerDay)%Z).
    assert (Hn : (msPerDay * n <= t - now < msPerDay * (n + 1))%Z).
    { unfold n, msPerDay. Z.to_euclidean_division_equations. lia. }
    unfold msPerDay in Hn. cbn [number_ltb string_of_number].
    destruct (Z.ltb_spec n 0).
    + split; [intros _; lia | reflexivity].
    + destruct (Z.ltb_spec n 7); [split; [discriminate | lia] | ].
      destruct (Z.ltb_spec n 30); split; (discriminate || lia).
Qed.

End WithHost.

Lemma formatDate_labels_witness :
  @formatDate Samples.host MoreSamples.echoDate Samples.noon "2024-01-01"
  = "Today"
  /\ @formatDate Samples.host MoreSamples.echoDate Samples.noon "2023-12-25"
     = "2023-12-25"
  /\ @formatDate Samples.host MoreSamples.echoDate Samples.noon "2024-01-21"
     = "-20 days ago"
  /\ @formatDate Samples.host MoreSamples.echoDate Samples.noon "someday"
     = "someday".
Proof.
  split; [ | split; [ | split]].
  - refine (proj1 (proj1 (@formatDate_labels Samples.host MoreSamples.echoDate
                            Samples.noon "2024-01-01")
                     1704067200000%Z eq_refl) _).
    unfold Samples.noon, msPerDay. lia.
  - refine (proj1 (proj2 (proj2 (proj2
              (proj1 (@formatDate_labels Samples.host MoreSamples.echoDate
                        Samples.noon "2023-12-25")
                 1703462400000%Z eq_refl)))) _).
    unfold Samples.noon, msPerDay. lia.
  - refine (proj1 (proj2 (proj2 (proj2 (proj2
              (proj1 (@formatDate_labels Samples.host MoreSamples.echoDate
                        Samples.noon "2024-01-21")
                 1705795200000%Z eq_refl)))) _)).
    unfold Samples.noon. lia.
  - exact (proj2 (@formatDate_labels Samples.host MoreSamples.echoDate
                    Samples.noon "someday") eq_refl).
Defined.

Lemma completion_message_overdue_witness :
  @getCompletionMessage Samples.host Samples.noon
    (Samples.due "h" "InProgress" 7 7 (Some "2023-12-25")) = "✅ Completed"
  /\ (@getCompletionMessage Samples.host Samples.noon
        (Samples.due "b" "InProgress" 4 1 (Some "2023-12-25")) = "⚠️ Overdue"
      <-> (1703462400000 < Samples.noon)%Z).
Proof.
  split.
  - apply (proj1 (@completion_message_overdue Samples.host Samples.noon _)).
    + discriminate.
    + reflexivity.
  - apply (proj2 (@completion_message_overdue Samples.host Samples.noon _)
             "2023-12-25" 1703462400000%Z).
    + vm_compute. discriminate.
    + reflexivity.
    + discriminate.
    + reflexivity.
Defined.

(** The colour of the priority label follows the status: red exactly for
    projects on hold, yellow exactly for projects in progress below 30
    percent, blue exactly for projects in planning, grey for all others. *)
Theorem priority_colour (p : ProjectDto) :
  (getPriorityColor (getPriority p) = "text-red-600"
   <-> status p = Some "OnHold")
  /\ (getPriorityColor (getPriority p) = "text-yellow-600"
      <-> status p = Some "InProgress" /\ (calculateProgress p < 30)%Z)
  /\ (getPriorityColor (getPriority p) = "text-blue-600"
      <-> status p = Some "Planning")
  /\ (getPriorityColor (getPriority p) = "text-gray-600"
      <-> status p <> Some "OnHold" /\ status p <> Some "Planning"
          /\ (status p = Some "InProgress" -> (30 <= calculateProgress p)%Z)).
Proof.
  unfold getPriority.
  destruct (status_is p "OnHold") eqn:E1.
  { apply PriorityFacts.status_is_true in E1. rewrite E1. cbn.
    repeat split; intros; try discriminate; try tauto; try congruence;
      intuition congruence. }
  destruct (status_is p "InProgress") eqn:E2.
  { apply PriorityFacts.status_is_false in E1.
    apply PriorityFacts.status_is_true in E2.
    assert (E3 : status_is p "Planning" = false)
      by (apply PriorityFacts.status_is_false; rewrite E2; discriminate).
    rewrite E3, E2.
    destruct (Z.ltb_spec (calculateProgress p) 30); cbn;
      repeat split; intros; try discriminate; try lia; try congruence;
      intuition (try discriminate; try congruence; try lia). }
  destruct (status_is p "Planning") eqn:E3.
  { apply PriorityFacts.status_is_false in E1, E2.
    apply PriorityFacts.status_is_true in E3. rewrite E3. cbn.
    repeat split; intros; try discriminate; try congruence;
      intuition (try discriminate; try congruence). }
  apply PriorityFacts.status_is_false in E1, E2, E3. cbn.
  repeat split; intros; try discriminate; try congruence;
    intuition (try discriminate; try congruence).
Qed.

(** Progress grows with the completed count: of two records with the same
    positive task count, the one with more completed tasks has at least
    the progress of the other; no completed task gives 0 and all tasks
    completed give exactly 100. *)
Theorem progress_monotone (p q : ProjectDto) :
  ((0 < taskCount p)%Z -> taskCount q = taskCount p ->
   (completedTaskCount p <= completedTaskCount q)%Z ->
   (calculateProgress p <= calculateProgress q)%Z)
  /\ (completedTaskCount p = 0%Z -> calculateProgress p = 0%Z)
  /\ (taskCount p <> 0%Z -> completedTaskCount p = taskCount p ->
      calculateProgress p = 100%Z).
Proof.
  split; [ | split].
  - intros Ht Hq Hc.
    rewrite (ProgressFacts.calculateProgress_nonzero p) by lia.
    rewrite (ProgressFacts.calculateProgress_nonzero q) by lia.
    apply JSFacts.Math_round_mono. rewrite Hq.
    apply Qmult_le_compat_r; [ | discriminate].
    unfold Qdiv. apply Qmult_le_compat_r.
    + now rewrite <- Zle_Qle.
    + apply Qinv_le_0_compat. change 0%Q with (inject_Z 0).
      rewrite <- Zle_Qle. lia.
  - intros Hc. unfold calculateProgress.
    destruct (Z.eqb_spec (taskCount p) 0); [reflexivity | ].
    rewrite Hc. rewrite <- (JSFacts.Math_round_inject 0) at 2.
    unfold Math_round. apply Qfloor_comp.
    unfold Qdiv. change (inject_Z 0) with 0%Q. ring.
  - intros Ht Hc.
    rewrite (ProgressFacts.calculateProgress_nonzero p Ht), Hc.
    now apply round_full.
Qed.

Lemma progress_monotone_witness :
  (calculateProgress Samples.beta <= calculateProgress Samples.overrun)%Z
  /\ calculateProgress (Samples.named "q" "Q" "InProgress" 7 7) = 100%Z.
Proof.
  split.
  - apply (proj1 (progress_monotone Samples.beta Samples.overrun)).
    + reflexivity.
    + reflexivity.
    + cbn. lia.
  - apply (proj2 (proj2 (progress_monotone
                           (Samples.named "q" "Q" "InProgress" 7 7)
                           Samples.alpha))).
    + discriminate.
    + reflexivity.
Defined.

End CardMore.

(* ================================================================== *)
(** ** Further facts: the overview tab *)
(* ================================================================== *)

Module OverviewMore.
Import JS.

(** The completion cell of the overview table and the progress of the
    project cards agree on every record with a non-negative task count; on
    a negative task count the overview table shows 0. *)
Theorem completionLabel_agrees (p : ProjectDto) :
  (0 <= taskCount p ->
   OverviewTable.completionLabel p = ProjectsDisplay.calculateProgress p)
  /\ (taskCount p < 0 -> OverviewTable.completionLabel p = 0).
Proof.
  unfold OverviewTable.completionLabel, ProjectsDisplay.calculateProgress.
  split; intros Ht.
  - destruct (Z.ltb_spec 0 (taskCount p)), (Z.eqb_spec (taskCount p) 0);
      try reflexivity; lia.
  - destruct (Z.ltb_spec 0 (taskCount p)); [lia | reflexivity].
Qed.

Lemma completionLabel_agrees_witness :
  OverviewTable.completionLabel Samples.beta
  = ProjectsDisplay.calculateProgress Samples.beta
  /\ OverviewTable.completionLabel
       (Samples.named "n" "N" "InProgress" (-4) 1) = 0.
Proof.
  split.
  - apply (proj1 (completionLabel_agrees Samples.beta)). cbn. lia.
  - apply (proj2 (completionLabel_agrees _)). cbn. lia.
Defined.

(** The overview table shows the first five projects in their order, all
    of them when there are at most five; the "no projects" row appears
    exactly when there is no project row, so the body is never empty. *)
Theorem firstFive_rows (projects : list ProjectDto) :
  OverviewTable.firstFive projects = firstn 5 projects
  /\ (List.length (OverviewTable.firstFive projects) <= 5)%nat
  /\ ((List.length projects <= 5)%nat ->
      OverviewTable.firstFive projects = projects)
  /\ (OverviewTable.emptyRowShown projects = true
      <-> OverviewTable.firstFive projects = []).
Proof.
  assert (E : OverviewTable.firstFive projects = firstn 5 projects).
  { unfold OverviewTable.firstFive.
    change (slice projects 0 5) with (slice projects 0 (0 + 5)).
    rewrite (PaginationFacts.slice_window projects 0 5) by lia. reflexivity. }
  rewrite E. split; [reflexivity | split; [apply firstn_le_length | split]].
  - intros Hle. now apply firstn_all2.
  - unfold OverviewTable.emptyRowShown.
    destruct projects as [ | p ps]; cbn; split; congruence || lia || discriminate.
Qed.

Lemma firstFive_rows_witness :
  OverviewTable.firstFive [Samples.alpha; Samples.beta]
  = [Samples.alpha; Samples.beta].
Proof.
  apply (proj1 (proj2 (proj2 (firstFive_rows [Samples.alpha; Samples.beta])))).
  cbn. lia.
Defined.

Lemma reduceSum_nil (f : ProjectDto -> option Q) :
  ProjectManagement.reduceSum f [] = 0%Q.
Proof. reflexivity. Qed.

(** The overview tab without a statistics object computes the budget
    utilization itself: 0 when the budget total is not positive, spent
    over budget times 100 otherwise, so it never divides by zero; and it
    agrees with the statistics object whenever the budget total is at
    least 1. *)
Theorem budgetUtilization_fallback (projects : list ProjectDto) :
  let budget := ProjectManagement.reduceSum revenueValue projects in
  let spent := ProjectManagement.reduceSum ftsValue projects in
  ((budget <= 0)%Q -> OverviewTab.budgetUtilization projects None = 0%Q)
  /\ ((0 < budget)%Q ->
      OverviewTab.budgetUtilization projects None = (spent / budget * 100)%Q)
  /\ ((1 <= budget)%Q ->
      Some (OverviewTab.budgetUtilization projects None)
      = budgetUtilization (ProjectManagement.projectStats projects)).
Proof.
  intros budget spent.
  assert (Hpos : (0 < budget)%Q ->
                 OverviewTab.budgetUtilization projects None
                 = (spent / budget * 100)%Q).
  { intros Hb. unfold OverviewTab.budgetUtilization, OverviewTab.totalBudget,
      OverviewTab.totalSpent. fold budget. fold spent.
    destruct (Qle_bool budget 0) eqn:E; [ | reflexivity].
    apply Qle_bool_iff in E. exfalso. exact (Qlt_not_le _ _ Hb E). }
  split; [ | split; [exact Hpos | ]].
  - intros Hb. unfold OverviewTab.budgetUtilization, OverviewTab.totalBudget.
    fold budget. apply Qle_bool_iff in Hb. now rewrite Hb.
  - intros Hb.
    assert (H0 : (0 < budget)%Q) by (apply Qlt_le_trans with 1%Q; [reflexivity | exact Hb]).
    rewrite (Hpos H0).
    destruct projects as [ | p ps].
    { exfalso. unfold budget in Hb. rewrite reduceSum_nil in Hb.
      apply (Qlt_not_le 0 1); [reflexivity | exact Hb]. }
    unfold ProjectManagement.projectStats. cbn [budgetUtilization].
    change (0 <? Z.of_nat (List.length (p :: ps))) with true. cbv iota.
    unfold ProjectManagement.utilizationDenominator, Math_max.
    fold budget. fold spent.
    assert (Hmax : Qmax budget 1 = budget).
    { unfold Qmax, GenericMinMax.gmax.
      destruct (budget ?= 1)%Q eqn:C; try reflexivity.
      rewrite <- Qlt_alt in C. exfalso. exact (Qlt_not_le _ _ C Hb). }
    now rewrite Hmax.
Qed.

Lemma budgetUtilization_fallback_witness :
  let funded := [Samples.funded "f" (Some 200%Q) (Some 50%Q) None] in
  Some (OverviewTab.budgetUtilization funded None)
  = budgetUtilization (ProjectManagement.projectStats funded)
  /\ OverviewTab.budgetUtilization [Samples.funded "u" None (Some 50%Q) None] None
     = 0%Q.
Proof.
  intros funded. split.
  - apply (proj2 (proj2 (budgetUtilization_fallback funded))).
    vm_compute. discriminate.
  - apply (proj1 (budgetUtilization_fallback _)).
    vm_compute. discriminate.
Defined.

End OverviewMore.

(* ================================================================== *)
(** ** Further facts: navigation, shell and header *)
(* ================================================================== *)

Module ShellMore.
Import Navigation.
Local Open Scope string_scope.

(** Whether the role opens the restricted tab. *)
Lemma includes_admin_manager (r : string) :
  includesItem ["Admin"; "Manager"] r = true <-> r = "Admin" \/ r = "Manager".
Proof.
  unfold includesItem. cbn [existsb].
  rewrite !orb_true_iff, !String.eqb_eq. intuition discriminate.
Qed.

Lemma visible_ids (roleName : option string) :
  map navId (filteredItems (sidebarRole roleName))
  = (["overview"; "projects"; "construction"; "planning"; "reports"]
     ++ if includesItem ["Admin"; "Manager"] (JS.orEmpty roleName)
        then ["analytics"] else [])%list.
Proof.
  destruct roleName as [[ | c r] | ]; try reflexivity.
  unfold filteredItems, navigationItems. cbn [filter itemVisible roles sidebarRole
    JS.orEmpty].
  destruct (includesItem ["Admin"; "Manager"] (String c r)); reflexivity.
Qed.

Lemma available_ids (roleName : option string) :
  map tabId (availableTabs roleName)
  = (["overview"; "projects"; "construction"; "planning"; "reports"]
     ++ if includesItem ["Admin"; "Manager"] (JS.orEmpty roleName)
        then ["analytics"] else [])%list.
Proof.
  unfold availableTabs, tabs. cbn [filter tabAvailable requiredRole].
  destruct (includesItem ["Admin"; "Manager"] (JS.orEmpty roleName)); reflexivity.
Qed.

(** The sidebar and the tab table of the dashboard show the same tabs, in
    the same order, for every role name; the five unrestricted tabs are
    always among them, and "analytics" is exactly for the role names
    "Admin" and "Manager", compared exactly. *)
Theorem navigation_agrees (roleName : option string) :
  map navId (filteredItems (sidebarRole roleName))
  = map tabId (availableTabs roleName)
  /\ (forall id, In id ["overview"; "projects"; "construction"; "planning";
                        "reports"] ->
                 In id (map tabId (availableTabs roleName)))
  /\ (In "analytics" (map tabId (availableTabs roleName))
      <-> roleName = Some "Admin" \/ roleName = Some "Manager").
Proof.
  rewrite visible_ids, available_ids.
  split; [reflexivity | split].
  - intros id Hid. apply in_or_app. now left.
  - rewrite in_app_iff. split.
    + intros [Hin | Hin].
      * cbn in Hin. intuition discriminate.
      * destruct (includesItem ["Admin"; "Manager"] (JS.orEmpty roleName)) eqn:E;
          [ | destruct Hin].
        apply includes_admin_manager in E.
        destruct roleName as [r | ]; cbn in E.
        -- destruct E as [-> | ->]; auto.
        -- intuition discriminate.
    + intros Hr. right.
      assert (E : includesItem ["Admin"; "Manager"] (JS.orEmpty roleName) = true)
        by (destruct Hr as [-> | ->]; reflexivity).
      rewrite E. now left.
Qed.

Lemma navStep_visible (roleName : option string) (tab : string) (e : NavEvent) :
  In tab (map navId (filteredItems (sidebarRole roleName))) ->
  In (navStep roleName tab e) (map navId (filteredItems (sidebarRole roleName))).
Proof.
  intros Hin. unfold navStep.
  destruct (navOffered roleName tab e) eqn:Hoff; [ | exact Hin].
  destruct e as [id | ]; cbn [setActiveTab].
  - cbn [navOffered] in Hoff. unfold includesItem in Hoff.
    apply existsb_exists in Hoff. destruct Hoff as (x & Hx & E).
    apply String.eqb_eq in E. now subst.
  - rewrite visible_ids. apply in_or_app. left. cbn. tauto.
Qed.

Lemma navRun_visible (roleName : option string) (events : list NavEvent)
    (tab : string) :
  In tab (map navId (filteredItems (sidebarRole roleName))) ->
  In (fold_left (navStep roleName) events tab)
     (map navId (filteredItems (sidebarRole roleName))).
Proof.
  revert tab. induction events as [ | e events IH]; intros tab Hin; [exact Hin | ].
  cbn [fold_left]. apply IH. now apply navStep_visible.
Qed.

(** Whatever is clicked, the active tab is always one of the tabs the
    sidebar shows for the role: the "Tab not found" panel never renders,
    and the analytics panel renders only for "Admin" and "Manager". *)
Theorem navigation_stays_visible (roleName : option string)
    (events : list NavEvent) :
  In (navRun roleName events) (map navId (filteredItems (sidebarRole roleName)))
  /\ renderTabContent (navRun roleName events) <> TabNotFound
  /\ (renderTabContent (navRun roleName events) = AnalyticsPanel ->
      roleName = Some "Admin" \/ roleName = Some "Manager").
Proof.
  assert (Hin : In (navRun roleName events)
                   (map navId (filteredItems (sidebarRole roleName)))).
  { apply navRun_visible. rewrite visible_ids. apply in_or_app. left.
    cbn. tauto. }
  split; [exact Hin | ].
  rewrite visible_ids in Hin. apply in_app_or in Hin.
  destruct Hin as [Hin | Hin].
  - cbn in Hin.
    destruct Hin as [<- | [<- | [<- | [<- | [<- | []]]]]];
      (split; [discriminate | intros Hc; discriminate Hc]).
  - destruct (includesItem ["Admin"; "Manager"] (JS.orEmpty roleName)) eqn:E;
      [ | destruct Hin].
    destruct Hin as [<- | []]. split; [discriminate | intros _].
    apply includes_admin_manager in E.
    destruct roleName as [r | ]; cbn in E.
    + destruct E as [-> | ->]; auto.
    + intuition discriminate.
Qed.

Lemma navigation_stays_visible_witness :
  renderTabContent
    (navRun (Some "Worker")
       [SidebarClick "analytics"; SidebarClick "reports"; ViewAllProjects])
  = ReportsPanel
  /\ (renderTabContent (navRun (Some "Admin") [SidebarClick "analytics"])
      = AnalyticsPanel ->
      Some "Admin" = Some "Admin" \/ Some "Admin" = Some "Manager").
Proof.
  split.
  - reflexivity.
  - exact (proj2 (proj2 (navigation_stays_visible (Some "Admin")
                           [SidebarClick "analytics"]))).
Defined.

End ShellMore.

(* ================================================================== *)
(** ** Further facts: the shell's sidebar and the header *)
(* ================================================================== *)

Module LayoutMore.
Import AppShell.
Local Open Scope string_scope.

Lemma desktop_stays (s : ShellState) (e : ShellEvent) :
  isMobile s = false ->
  (forall w, e = Resize w -> 1024 <= w) ->
  isMobile (shellStep s e) = false.
Proof.
  intros Hs He. destruct e as [w | | ]; cbn [shellStep].
  - unfold handleResize. cbn [isMobile].
    specialize (He w eq_refl). apply Z.ltb_ge. exact He.
  - exact Hs.
  - unfold overlayShown. now rewrite Hs.
Qed.

Lemma desktop_run (events : list ShellEvent) (s : ShellState) :
  isMobile s = false ->
  (forall e, In e events -> forall w, e = Resize w -> 1024 <= w) ->
  isMobile (fold_left shellStep events s) = false.
Proof.
  revert s. induction events as [ | e events IH]; intros s Hs He; [exact Hs | ].
  cbn [fold_left]. apply IH.
  - apply desktop_stays; [exact Hs | ]. apply He. now left.
  - intros e' Hin. apply He. now right.
Qed.

(** The sidebar of the shell.  A resize opens the sidebar exactly on
    widths of 1024 and more and never leaves the overlay up; toggling
    twice restores the state; a click on the overlay takes it down; and
    as long as the window stays 1024 wide or wider the overlay never
    shows, whatever is toggled. *)
Theorem shell_overlay :
  (forall s w, sidebarOpen (shellStep s (Resize w)) = (1024 <=? w)%Z
               /\ overlayShown (shellStep s (Resize w)) = false)
  /\ (forall s, shellStep (shellStep s Toggle) Toggle = s)
  /\ (forall s, overlayShown (shellStep s OverlayClick) = false)
  /\ (forall w events,
        1024 <= w ->
        (forall e, In e events -> forall w', e = Resize w' -> 1024 <= w') ->
        overlayShown (shellRun w events) = false).
Proof.
  split; [ | split; [ | split]].
  - intros s w. cbn [shellStep]. unfold handleResize, overlayShown.
    cbn [sidebarOpen isMobile].
    rewrite Z.leb_antisym. destruct (w <? 1024)%Z; split; reflexivity.
  - intros [[ | ] mob]; reflexivity.
  - intros s. cbn [shellStep].
    destruct (overlayShown s) eqn:E; [ | exact E].
    unfold overlayShown, closeSidebar. cbn. apply andb_false_r.
  - intros w events Hw He. unfold shellRun, overlayShown.
    rewrite desktop_run; [reflexivity | | exact He].
    unfold handleResize. cbn [isMobile]. apply Z.ltb_ge. exact Hw.
Qed.

Lemma shell_overlay_witness :
  overlayShown (shellRun 1440 [Toggle; Resize 1280; Toggle; OverlayClick])
  = false
  /\ overlayShown (shellRun 800 [Toggle]) = true.
Proof.
  split.
  - apply (proj2 (proj2 (proj2 shell_overlay))); [lia | ].
    intros e [<- | [<- | [<- | [<- | []]]]] w' E; try discriminate E.
    injection E as <-. lia.
  - reflexivity.
Defined.



End LayoutMore.
